(** * Device constraints of Cirq: the Xmon grid device and the acquaintance device

    A shallow embedding of [cirq/google/xmon_device.py] and
    [cirq/contrib/acquaintance/devices.py], and the properties their
    specification states about them.

    Python integers are unbounded, so they are [Z]; [frozenset] is [gset];
    [set] of strings is [gset string]; a raising function returns in the
    [Result] monad below. *)

From Stdlib Require Import ZArith List Bool Lia.
From stdpp Require Import base decidable countable gmap sets list strings sorting.

Local Open Scope Z_scope.

(* [set_solver] clears hypotheses by name, some of which are already gone. *)
#[local] Set Warnings "-clear-no-such-hyp".

(** ** Exceptions

    The Python code raises [ValueError], [TypeError] and
    [NotImplementedError]; every [ValueError] of the two files has its own
    format string, which is what [Message] records.  An attribute looked up on
    an object that does not have it raises [AttributeError]. *)

Inductive Message : Type :=
| UnsupportedGateType        (* 'Unsupported gate type: {!r}' *)
| UnsupportedOperation       (* 'Unsupported operation: {!r}' *)
| UnsupportedQubitType       (* 'Unsupported qubit type: {!r}' *)
| QubitNotOnDevice           (* 'Qubit not on device: {!r}' *)
| NonLocalInteraction        (* 'Non-local interaction: {!r}.' *)
| AdjacentExp11Operations    (* 'Adjacent Exp11 operations: {}.' *)
| MeasurementKeyRepeated (key : string) (* 'Measurement key {} repeated' *)
| NotGateOperationOfGateTypes (* 'not (isinstance(...) and ininstance(...)' *)
| NotAcquaintanceStrategy    (* 'not is_acquaintance_strategy(circuit)' *)
| NotCircuitOrOperation.     (* 'not isinstance(obj, (Circuit, Operation))' *)

Inductive Exception : Type :=
| ValueError (m : Message)
| TypeError (m : Message)
| NotImplementedError
| AttributeError.

Inductive Result (A : Type) : Type :=
| Ok (a : A)
| Raise (e : Exception).

Arguments Ok {A} a.
Arguments Raise {A} e.

Definition bind {A B : Type} (r : Result A) (k : A -> Result B) : Result B :=
  match r with
  | Ok a => k a
  | Raise e => Raise e
  end.

Notation "'letR' x ':=' r 'in' k" := (bind r (fun x => k))
  (at level 10, x name, r at level 100, k at level 200).
Notation "r ';;' k" := (bind r (fun _ => k))
  (at level 100, right associativity).

(** [for op in l: f(op)] where [f] may raise. *)
Fixpoint for_each {A : Type} (f : A -> Result unit) (l : list A) : Result unit :=
  match l with
  | [] => Ok tt
  | x :: l' => f x ;; for_each f l'
  end.

(** [any(f(x) for x in l)]: stops at the first true value, and at the first
    exception. *)
Fixpoint any_of {A : Type} (f : A -> Result bool) (l : list A) : Result bool :=
  match l with
  | [] => Ok false
  | x :: l' => letR b := f x in if b then Ok true else any_of f l'
  end.

(** The error taxonomy of the specification, and the exception of the code
    each of its names stands for. *)
Inductive ErrorKind : Type :=
| UnsupportedOperationError
| UnsupportedGateError
| QubitNotOnDeviceError
| NonLocalInteractionError
| AdjacentInteractionError
| DuplicateMeasurementKeyError
| TypeMismatchError
| NotSupportedError.

Definition error_kind (e : Exception) : option ErrorKind :=
  match e with
  | ValueError UnsupportedOperation => Some UnsupportedOperationError
  | ValueError UnsupportedGateType => Some UnsupportedGateError
  | ValueError UnsupportedQubitType => Some QubitNotOnDeviceError
  | ValueError QubitNotOnDevice => Some QubitNotOnDeviceError
  | ValueError NonLocalInteraction => Some NonLocalInteractionError
  | ValueError AdjacentExp11Operations => Some AdjacentInteractionError
  | ValueError (MeasurementKeyRepeated _) => Some DuplicateMeasurementKeyError
  | TypeError _ => Some TypeMismatchError
  | NotImplementedError => Some NotSupportedError
  | _ => None
  end.

(** [fails_with r k]: the call raised, and its exception is of kind [k]. *)
Definition fails_with {A : Type} (r : Result A) (k : ErrorKind) : Prop :=
  exists e, r = Raise e /\ error_kind e = Some k.

(** ** Qubits *)

Record GridQubit : Type := { row : Z; col : Z }.

Definition GQ (r c : Z) : GridQubit := {| row := r; col := c |}.

#[global] Instance GridQubit_eq_dec : EqDecision GridQubit.
Proof. solve_decision. Defined.

#[global] Instance GridQubit_countable : Countable GridQubit.
Proof.
  refine (inj_countable' (fun q => (row q, col q)) (fun p => GQ (fst p) (snd p)) _).
  intros [r c]. reflexivity.
Defined.

(** A qubit id is a [GridQubit] or a qubit of another class; [NamedQubit]
    stands for the classes that have no [is_adjacent] method. *)
Inductive Qid : Type :=
| Grid (q : GridQubit)
| NamedQubit (name : string).

(** Modelled from the spec: [GridQubit.is_adjacent] is declared in
    [cirq/devices/grid_qubit.py], which is not part of the two files.
    Adjacency is exactly the four cardinal neighbours: row +/- 1 at the same
    column, column +/- 1 at the same row; a qubit that is not a grid qubit is
    adjacent to nothing. *)
Definition grid_adjacentb (p q : GridQubit) : bool :=
  ((row q =? row p + 1) && (col q =? col p))
  || ((row q =? row p - 1) && (col q =? col p))
  || ((row q =? row p) && (col q =? col p + 1))
  || ((row q =? row p) && (col q =? col p - 1)).

Definition is_adjacent (self : GridQubit) (other : Qid) : bool :=
  match other with
  | Grid q => grid_adjacentb self q
  | NamedQubit _ => false
  end.

(** [cast(GridQubit, q).is_adjacent(p)]: the cast does nothing at run time, so
    the call raises when [q] has no such method. *)
Definition call_is_adjacent (q p : Qid) : Result bool :=
  match q with
  | Grid g => Ok (is_adjacent g p)
  | NamedQubit _ => Raise AttributeError
  end.

(** ** Gates *)

(** The gate classes the two files test with [isinstance]; [OtherGate] is any
    other class. *)
Inductive GateClass : Type :=
| CZPowGate
| XPowGate
| YPowGate
| PhasedXPowGate
| MeasurementGate
| ZPowGate
| AcquaintanceOpportunityGate
| PermutationGate
| BipartiteSwapNetworkGate
| ShiftSwapNetworkGate
| SwapNetworkGate
| OtherGate.

#[global] Instance GateClass_eq_dec : EqDecision GateClass.
Proof. solve_decision. Defined.

(** What a gate object of each class carries, as far as the two files read
    it: the measurement key, the value of [ShiftSwapNetworkGate]'s own
    [acquaintance_size()] method, and [SwapNetworkGate]'s [part_lens] and
    optional [acquaintance_size]. *)
Inductive GateData : Type :=
| CZPow
| XPow
| YPow
| PhasedXPow
| Measurement (key : string)
| ZPow
| AcquaintanceOpportunity
| Permutation
| BipartiteSwapNetwork
| ShiftSwapNetwork (acquaintance_size : Z)
| SwapNetwork (part_lens : list Z) (acquaintance_size : option Z)
| Other.

(** A gate object: its data, and its [_acquaintance_size_] attribute when it
    has one ([getattr(gate, '_acquaintance_size_', None)]). *)
Record Gate : Type := {
  data : GateData;
  _acquaintance_size_ : option (Z -> Z)
}.

Definition class_of (d : GateData) : GateClass :=
  match d with
  | CZPow => CZPowGate
  | XPow => XPowGate
  | YPow => YPowGate
  | PhasedXPow => PhasedXPowGate
  | Measurement _ => MeasurementGate
  | ZPow => ZPowGate
  | AcquaintanceOpportunity => AcquaintanceOpportunityGate
  | Permutation => PermutationGate
  | BipartiteSwapNetwork => BipartiteSwapNetworkGate
  | ShiftSwapNetwork _ => ShiftSwapNetworkGate
  | SwapNetwork _ _ => SwapNetworkGate
  | Other => OtherGate
  end.

(** Modelled from the spec: the gate classes are declared outside the two
    files; the specification takes the gate kind to be a closed tag, so a gate
    is an instance of exactly its own class. *)
Definition isinstance (gate : Gate) (c : GateClass) : bool :=
  bool_decide (class_of (data gate) = c).

(** [isinstance(gate, (c1, ..., cn))] *)
Definition isinstance_any (gate : Gate) (cs : list GateClass) : bool :=
  existsb (isinstance gate) cs.

(** The gate kinds of the specification. *)
Inductive GateKind : Type :=
| two_qubit_interaction
| single_qubit_rotation
| phased_single_qubit_rotation
| measurement
| virtual_phase
| permutation
| acquaintance_opportunity
| bipartite_swap_network
| shift_swap_network
| generic_swap_network
| unrecognized.

#[global] Instance GateKind_eq_dec : EqDecision GateKind.
Proof. solve_decision. Defined.

Definition kind_of_class (c : GateClass) : GateKind :=
  match c with
  | CZPowGate => two_qubit_interaction
  | XPowGate | YPowGate => single_qubit_rotation
  | PhasedXPowGate => phased_single_qubit_rotation
  | MeasurementGate => measurement
  | ZPowGate => virtual_phase
  | AcquaintanceOpportunityGate => acquaintance_opportunity
  | PermutationGate => permutation
  | BipartiteSwapNetworkGate => bipartite_swap_network
  | ShiftSwapNetworkGate => shift_swap_network
  | SwapNetworkGate => generic_swap_network
  | OtherGate => unrecognized
  end.

Definition kind_of (gate : Gate) : GateKind := kind_of_class (class_of (data gate)).

(** ** Operations, moments, circuits *)

Inductive Operation : Type :=
| GateOperation (gate : Gate) (qubits : list Qid)
| OtherOperation (qubits : list Qid).

Definition qubits_of (op : Operation) : list Qid :=
  match op with
  | GateOperation _ qs => qs
  | OtherOperation qs => qs
  end.

(** [ops.op_gate_of_type(op, c)]: the gate of [op] when [op] is a gate
    operation whose gate is an instance of [c], else [None]. *)
Definition op_gate_of_type (op : Operation) (c : GateClass) : option Gate :=
  match op with
  | GateOperation gate _ => if isinstance gate c then Some gate else None
  | OtherOperation _ => None
  end.

(** The truth value of what [op_gate_of_type] returns. *)
Definition truthy (g : option Gate) : bool :=
  match g with
  | Some _ => true
  | None => false
  end.

(** The kind of an operation; an operation that carries no gate is
    unrecognized. *)
Definition op_kind (op : Operation) : GateKind :=
  match op with
  | GateOperation gate _ => kind_of gate
  | OtherOperation _ => unrecognized
  end.

(** An operation object held by a moment: [addr] is its identity, what
    Python's [is] compares. *)
Record OpObject : Type := { addr : nat; this : Operation }.

Record Moment : Type := { operations : list OpObject }.

(** ** Devices *)

(** [value.Duration]: a time span in picoseconds; [Duration()] is zero. *)
Record Duration : Type := { total_picos : Z }.

Definition Duration_zero : Duration := {| total_picos := 0 |}.

(** The fields [XmonDevice.__init__] sets. *)
Record XmonDevice : Type := {
  _measurement_duration : Duration;
  _exp_w_duration : Duration;
  _exp_z_duration : Duration;
  qubits : gset GridQubit
}.

(** The device a circuit is attached to: an [XmonDevice], the
    [UnconstrainedAcquaintanceDevice] (the one [AcquaintanceDevice] of the
    file), or a device of another class. *)
Inductive Device : Type :=
| Xmon (d : XmonDevice)
| UnconstrainedAcquaintanceDevice
| OtherDevice.

Record Circuit : Type := { _device : Device; moments : list Moment }.

(** [circuit.all_operations()]: the operations of every moment, in order. *)
Definition all_operations (circuit : Circuit) : list Operation :=
  flat_map (fun m => map this (operations m)) (moments circuit).

(** Modelled from the spec: the base class [devices.Device] is declared in
    [cirq/devices/device.py], which is not part of the two files.  Its
    [validate_moment] validates every operation of the moment with the
    device's own [validate_operation], and its [validate_circuit] validates
    every moment of the circuit with the device's own [validate_moment]
    (the operation validator runs for every operation of a moment, the
    conflict detector for every completed moment). *)
Module Device.

Definition validate_moment (validate_operation : Operation -> Result unit)
    (moment : Moment) : Result unit :=
  for_each (fun o => validate_operation (this o)) (operations moment).

Definition validate_circuit (validate_moment : Moment -> Result unit)
    (circuit : Circuit) : Result unit :=
  for_each validate_moment (moments circuit).

End Device.

(** Modelled from the spec: [protocols.is_measurement] and
    [protocols.measurement_key] are declared outside the two files.  A
    measurement-kind operation is a gate operation with a measurement gate,
    and its key is the string attached to that gate: [measurement_key_of op]
    is [Some key] when [is_measurement(op)] holds and [measurement_key(op)]
    is [key], and [None] when [is_measurement(op)] does not hold. *)
Definition measurement_key_of (op : Operation) : option string :=
  match op with
  | GateOperation gate _ =>
      match data gate with
      | Measurement key => Some key
      | _ => None
      end
  | OtherOperation _ => None
  end.

(** [_verify_unique_measurement_keys], with the [seen] set as loop state. *)
Fixpoint verify_unique_measurement_keys_from (seen : gset string)
    (operations : list Operation) : Result unit :=
  match operations with
  | [] => Ok tt
  | op :: rest =>
      match measurement_key_of op with
      | Some key =>
          if decide (key ∈ seen)
          then Raise (ValueError (MeasurementKeyRepeated key))
          else verify_unique_measurement_keys_from ({[key]} ∪ seen) rest
      | None => verify_unique_measurement_keys_from seen rest
      end
  end.

Definition _verify_unique_measurement_keys (operations : list Operation) : Result unit :=
  verify_unique_measurement_keys_from ∅ operations.

Module XmonDevice.

Definition neighbors_of (self : XmonDevice) (qubit : GridQubit) : list GridQubit :=
  let possibles := [
    GQ (row qubit + 1) (col qubit);
    GQ (row qubit - 1) (col qubit);
    GQ (row qubit) (col qubit + 1);
    GQ (row qubit) (col qubit - 1)
  ] in
  filter (fun e => e ∈ qubits self) possibles.

Definition duration_of (self : XmonDevice) (operation : Operation) : Result Duration :=
  if truthy (op_gate_of_type operation CZPowGate) then Ok (_exp_z_duration self)
  else if truthy (op_gate_of_type operation MeasurementGate) then Ok (_measurement_duration self)
  else if truthy (op_gate_of_type operation XPowGate)
          || truthy (op_gate_of_type operation YPowGate)
          || truthy (op_gate_of_type operation PhasedXPowGate)
  then Ok (_exp_w_duration self)
  else if truthy (op_gate_of_type operation ZPowGate) then Ok Duration_zero
  else Raise (ValueError UnsupportedGateType).

Definition validate_gate (self : XmonDevice) (gate : Gate) : Result unit :=
  if negb (isinstance_any gate
             [CZPowGate; XPowGate; YPowGate; PhasedXPowGate; MeasurementGate; ZPowGate])
  then Raise (ValueError UnsupportedGateType)
  else Ok tt.

(** The body of the loop over [operation.qubits]. *)
Definition validate_qubit (self : XmonDevice) (q : Qid) : Result unit :=
  match q with
  | NamedQubit _ => Raise (ValueError UnsupportedQubitType)
  | Grid g =>
      if decide (g ∈ qubits self) then Ok tt
      else Raise (ValueError QubitNotOnDevice)
  end.

Definition validate_operation (self : XmonDevice) (operation : Operation) : Result unit :=
  match operation with
  | OtherOperation _ => Raise (ValueError UnsupportedOperation)
  | GateOperation gate qs =>
      validate_gate self gate ;;
      for_each (validate_qubit self) qs ;;
      match qs with
      | [p; q] =>
          if negb (isinstance gate MeasurementGate) then
            letR adjacent := call_is_adjacent p q in
            if negb adjacent then Raise (ValueError NonLocalInteraction)
            else Ok tt
          else Ok tt
      | _ => Ok tt
      end
  end.

(** [other_op.gate] raises on an operation that has no gate. *)
Definition _check_if_exp11_operation_interacts (self : XmonDevice)
    (exp11_op other_op : Operation) : Result bool :=
  match other_op with
  | OtherOperation _ => Raise AttributeError
  | GateOperation gate other_qubits =>
      if isinstance_any gate
           [XPowGate; YPowGate; PhasedXPowGate; MeasurementGate; ZPowGate]
      then Ok false
      else any_of (fun qp => call_is_adjacent (fst qp) (snd qp))
             (flat_map (fun q => map (fun p => (q, p)) other_qubits)
                (qubits_of exp11_op))
  end.

Definition _check_if_exp11_operation_interacts_with_any (self : XmonDevice)
    (exp11_op : Operation) (others : list Operation) : Result bool :=
  any_of (_check_if_exp11_operation_interacts self exp11_op) others.

(** The two loops of [validate_moment] after the call to the base class:
    [other is not op] compares identities. *)
Definition check_exp11_conflicts (self : XmonDevice) (ops : list OpObject) : Result unit :=
  for_each (fun op =>
    if truthy (op_gate_of_type (this op) CZPowGate) then
      for_each (fun other =>
        if bool_decide (addr other <> addr op) then
          letR b := _check_if_exp11_operation_interacts self (this op) (this other) in
          if b then Raise (ValueError AdjacentExp11Operations) else Ok tt
        else Ok tt) ops
    else Ok tt) ops.

Definition validate_moment (self : XmonDevice) (moment : Moment) : Result unit :=
  Device.validate_moment (validate_operation self) moment ;;
  check_exp11_conflicts self (operations moment).

Definition validate_circuit (self : XmonDevice) (circuit : Circuit) : Result unit :=
  Device.validate_circuit (validate_moment self) circuit ;;
  _verify_unique_measurement_keys (all_operations circuit).

Section can_add.
(** The base class's [can_add_operation_into_moment] is not part of the
    two files and the specification does not describe it: it is a
    parameter here. *)
Variable super_can_add_operation_into_moment : Operation -> Moment -> bool.

Definition can_add_operation_into_moment (self : XmonDevice)
    (operation : Operation) (moment : Moment) : Result bool :=
  validate_moment self moment ;;
  if negb (super_can_add_operation_into_moment operation moment) then Ok false
  else if truthy (op_gate_of_type operation CZPowGate) then
    letR b := _check_if_exp11_operation_interacts_with_any self operation
                (map this (operations moment)) in
    Ok (negb b)
  else Ok true.
End can_add.

End XmonDevice.

(** ** Schedules (only their shape: the acquaintance device reads none of it) *)

Record ScheduledOperation : Type := {
  time : Z;
  duration : Duration;
  operation : Operation
}.

Record Schedule : Type := {
  schedule_device : Device;
  scheduled_operations : list ScheduledOperation
}.

(** ** The acquaintance device *)

Module AcquaintanceDevice.

Definition gate_types : list GateClass :=
  [AcquaintanceOpportunityGate; PermutationGate].

Definition validate_operation (operation : Operation) : Result unit :=
  if negb (match operation with
           | GateOperation gate _ => isinstance_any gate gate_types
           | OtherOperation _ => false
           end)
  then Raise (ValueError NotGateOperationOfGateTypes)
  else Ok tt.

Definition duration_of (operation : Operation) : Result Duration :=
  Raise NotImplementedError.

Definition validate_scheduled_operation (schedule : Schedule)
    (scheduled_operation : ScheduledOperation) : Result unit :=
  Raise NotImplementedError.

Definition validate_schedule (schedule : Schedule) : Result unit :=
  Raise NotImplementedError.

End AcquaintanceDevice.

Definition is_acquaintance_strategy (circuit : Circuit) : bool :=
  match _device circuit with
  | UnconstrainedAcquaintanceDevice => true
  | _ => false
  end.

(** What [get_acquaintance_size] can be called on. *)
Inductive Object : Type :=
| CircuitObject (circuit : Circuit)
| OperationObject (op : Operation)
| OtherObject.

(** [sorted(l)] on integers, [l[-2:]] and [sum(l)]. *)
Definition sorted (l : list Z) : list Z := merge_sort Z.le l.

Definition last_two (l : list Z) : list Z := drop (length l - 2)%nat l.

Definition sum (l : list Z) : Z := fold_left Z.add l 0.

(** [max(sizes or (0,))] *)
Definition max_or_zero (sizes : list Z) : Z :=
  match sizes with
  | [] => 0
  | x :: rest => fold_left Z.max rest x
  end.

(** The last two lines of [get_acquaintance_size]. *)
Definition sizer_or_zero (gate : Gate) (qs : list Qid) : Z :=
  match _acquaintance_size_ gate with
  | None => 0
  | Some sizer => sizer (Z.of_nat (length qs))
  end.

(** [get_acquaintance_size] on an operation: the [isinstance] chain is a match
    on the gate's data, the classes being disjoint. *)
Definition operation_acquaintance_size (op : Operation) : Z :=
  match op with
  | OtherOperation _ => 0
  | GateOperation gate qs =>
      match data gate with
      | AcquaintanceOpportunity => Z.of_nat (length qs)
      | BipartiteSwapNetwork => 2
      | ShiftSwapNetwork size => size
      | SwapNetwork part_lens None => sum (last_two (sorted part_lens))
      | SwapNetwork part_lens (Some size) =>
          if bool_decide (size - 1 ∈ part_lens) then size
          else sizer_or_zero gate qs
      | _ => sizer_or_zero gate qs
      end
  end.

Definition get_acquaintance_size (obj : Object) : Result Z :=
  match obj with
  | CircuitObject circuit =>
      if negb (is_acquaintance_strategy circuit)
      then Raise (TypeError NotAcquaintanceStrategy)
      else Ok (max_or_zero (map operation_acquaintance_size (all_operations circuit)))
  | OperationObject op => Ok (operation_acquaintance_size op)
  | OtherObject => Raise (TypeError NotCircuitOrOperation)
  end.

(** * The vocabulary of the specification

    The predicates the properties below are stated with.  None of them is
    used by the embedding above. *)

(** Grid adjacency as the specification words it. *)
Definition grid_adjacent (p q : GridQubit) : Prop :=
  (row q = row p + 1 /\ col q = col p)
  \/ (row q = row p - 1 /\ col q = col p)
  \/ (row q = row p /\ col q = col p + 1)
  \/ (row q = row p /\ col q = col p - 1).

(** A diagonal position of [p]: one row and one column away. *)
Definition diagonal (p q : GridQubit) : Prop :=
  Z.abs (row q - row p) = 1 /\ Z.abs (col q - col p) = 1.

(** The allowed gate set of the timing device. *)
Definition allowed_kind (k : GateKind) : bool :=
  match k with
  | two_qubit_interaction | single_qubit_rotation | phased_single_qubit_rotation
  | measurement | virtual_phase => true
  | _ => false
  end.

(** An operand that is a position of the device's topology. *)
Definition on_device (self : XmonDevice) (q : Qid) : Prop :=
  exists g, q = Grid g /\ g ∈ qubits self.

(** Exactly two operands, not a measurement, the two positions not adjacent. *)
Definition non_local (gate : Gate) (qs : list Qid) : Prop :=
  kind_of gate <> measurement
  /\ exists p q, qs = [Grid p; Grid q] /\ ~ grid_adjacent p q.

(** The gate kinds that never take part in a conflict. *)
Definition non_interacting (k : GateKind) : bool :=
  match k with
  | single_qubit_rotation | phased_single_qubit_rotation | measurement | virtual_phase => true
  | _ => false
  end.

(** Some operand of the first list is adjacent to some operand of the second. *)
Definition some_adjacent (qsA qsB : list GridQubit) : Prop :=
  exists q p, In q qsA /\ In p qsB /\ grid_adjacent q p.

Definition some_adjacentb (qsA qsB : list GridQubit) : bool :=
  existsb (fun q => existsb (grid_adjacentb q) qsB) qsA.

(** Two operations of the moment conflict: a two-qubit interaction and another
    object of the moment that [interacts] reports. *)
Definition conflict (self : XmonDevice) (ops : list OpObject) : Prop :=
  exists op other,
    In op ops /\ In other ops /\ addr other <> addr op
    /\ op_kind (this op) = two_qubit_interaction
    /\ XmonDevice._check_if_exp11_operation_interacts self (this op) (this other) = Ok true.

(** [op] conflicts with some operation already in the moment. *)
Definition conflicts_with_any (self : XmonDevice) (op : Operation) (ops : list OpObject) : Prop :=
  exists other, In other ops
    /\ XmonDevice._check_if_exp11_operation_interacts self op (this other) = Ok true.

(** [s] is the sum of the two largest values of [l] (of all of them, when
    there are fewer than two). *)
Definition sum_of_two_largest (l : list Z) (s : Z) : Prop :=
  match l with
  | [] => s = 0
  | [a] => s = a
  | _ => exists a b rest,
           l ≡ₚ a :: b :: rest
           /\ Forall (fun x => x <= a /\ x <= b) rest
           /\ s = a + b
  end.

(** [m] is the largest value of [l], or 0 when [l] is empty. *)
Definition max_of_or_zero (l : list Z) (m : Z) : Prop :=
  match l with
  | [] => m = 0
  | _ => In m l /\ forall x, In x l -> x <= m
  end.

(** The measurement keys of a sequence of operations, in scan order. *)
Definition keys_of (ops : list Operation) : list string := omap measurement_key_of ops.

(** Some key is carried by two measurement operations of the sequence. *)
Definition key_on_two_measurements (ops : list Operation) : Prop :=
  exists k pre a mid b post,
    ops = pre ++ a :: mid ++ b :: post
    /\ measurement_key_of a = Some k /\ measurement_key_of b = Some k.

(** [k] is the first repeated key in scan order: it is the key of the first
    operation whose key was already met, the keys before it being distinct. *)
Definition first_repeated_key (ops : list Operation) (k : string) : Prop :=
  exists pre op post,
    ops = pre ++ op :: post
    /\ measurement_key_of op = Some k
    /\ NoDup (keys_of pre) /\ k ∈ keys_of pre.

(** The same operation with another measurement key; an operation that is not
    a measurement is left as it is. *)
Definition set_key (key' : string) (op : Operation) : Operation :=
  match op with
  | GateOperation gate qs =>
      match data gate with
      | Measurement _ =>
          GateOperation {| data := Measurement key';
                           _acquaintance_size_ := _acquaintance_size_ gate |} qs
      | _ => op
      end
  | OtherOperation _ => op
  end.

(** [b] is [a] up to its measurement key. *)
Definition same_but_key (a b : Operation) : Prop :=
  b = a \/ exists key', b = set_key key' a.

Definition same_but_key_object (a b : OpObject) : Prop :=
  addr b = addr a /\ same_but_key (this a) (this b).

(** Two circuits that differ in nothing but measurement keys. *)
Definition same_but_keys (c c' : Circuit) : Prop :=
  _device c' = _device c
  /\ Forall2 (fun m m' => Forall2 same_but_key_object (operations m) (operations m'))
       (moments c) (moments c').

(** * Sample devices, moments and circuits

    The device and the moments of the specification's scenarios, and the
    inputs the theorems are instantiated at. *)

Definition picoseconds (n : Z) : Duration := {| total_picos := n |}.

Definition square_device : XmonDevice := {|
  _measurement_duration := picoseconds 1000;
  _exp_w_duration := picoseconds 20;
  _exp_z_duration := picoseconds 50;
  qubits := {[ GQ 0 0; GQ 0 1; GQ 1 0; GQ 1 1 ]}
|}.

Definition plain (d : GateData) : Gate := {| data := d; _acquaintance_size_ := None |}.

Definition two_interactions : Moment := {| operations := [
  {| addr := 0; this := GateOperation (plain CZPow) [Grid (GQ 0 0); Grid (GQ 0 1)] |};
  {| addr := 1; this := GateOperation (plain CZPow) [Grid (GQ 1 0); Grid (GQ 1 1)] |}
] |}.

Definition four_rotations : Moment := {| operations := [
  {| addr := 0; this := GateOperation (plain XPow) [Grid (GQ 0 0)] |};
  {| addr := 1; this := GateOperation (plain XPow) [Grid (GQ 0 1)] |};
  {| addr := 2; this := GateOperation (plain XPow) [Grid (GQ 1 0)] |};
  {| addr := 3; this := GateOperation (plain XPow) [Grid (GQ 1 1)] |}
] |}.

Definition one_interaction : Moment := {| operations := [
  {| addr := 0; this := GateOperation (plain CZPow) [Grid (GQ 0 0); Grid (GQ 0 1)] |}
] |}.

Definition measure (key : string) (q : GridQubit) : Operation :=
  GateOperation (plain (Measurement key)) [Grid q].

Definition repeated_key_circuit : Circuit := {|
  _device := Xmon square_device;
  moments := [ {| operations := [
    {| addr := 0; this := measure "m" (GQ 0 0) |};
    {| addr := 1; this := measure "m" (GQ 1 1) |} ] |} ]
|}.

Definition distinct_keys_circuit : Circuit := {|
  _device := Xmon square_device;
  moments := [ {| operations := [
    {| addr := 0; this := measure "m" (GQ 0 0) |};
    {| addr := 1; this := measure "n" (GQ 1 1) |} ] |} ]
|}.

Definition acquaint : Gate := plain AcquaintanceOpportunity.

Definition sized_network : Gate := plain (SwapNetwork [2; 1; 2] (Some 3)).

Definition hooked_network : Gate :=
  {| data := SwapNetwork [2; 2] (Some 5); _acquaintance_size_ := Some (fun n => n + 1) |}.

Definition strategy_circuit : Circuit := {|
  _device := UnconstrainedAcquaintanceDevice;
  moments := [
    {| operations := [
         {| addr := 0; this := GateOperation acquaint [NamedQubit "a"; NamedQubit "b"] |} ] |};
    {| operations := [
         {| addr := 1; this := GateOperation (plain (SwapNetwork [2; 1] None))
                                 [NamedQubit "a"; NamedQubit "b"; NamedQubit "c"] |} ] |} ]
|}.

Definition empty_strategy_circuit : Circuit :=
  {| _device := UnconstrainedAcquaintanceDevice; moments := [] |}.

(** * The rest of the two files

    The methods of [XmonDevice] that the sections above leave out: the
    constructor and the value-equality tuple, the accessors [at], [row] and
    [col], and the validation of schedules. *)

(** Modelled from the spec: the ordering of [GridQubit] is declared in
    [cirq/devices/grid_qubit.py], which is not part of the two files.
    Positions are ordered by (row, col), lexicographically. *)
Definition GridQubit_le (p q : GridQubit) : Prop :=
  row p < row q \/ (row p = row q /\ col p <= col q).

#[global] Instance GridQubit_le_dec : RelDecision GridQubit_le.
Proof. intros p q. unfold GridQubit_le. apply _. Defined.

(** [q.row == row], the filter of [XmonDevice.row], and [q.col == col], the
    filter of [XmonDevice.col]. *)
Definition in_row (r : Z) (q : GridQubit) : Prop := row q = r.

Definition in_col (c : Z) (q : GridQubit) : Prop := col q = c.

#[global] Instance in_row_dec (r : Z) (q : GridQubit) : Decision (in_row r q).
Proof. unfold in_row. apply _. Defined.

#[global] Instance in_col_dec (c : Z) (q : GridQubit) : Decision (in_col c q).
Proof. unfold in_col. apply _. Defined.

Module XmonDeviceGrid.

Section init.
(** [value.Duration.create] is not part of the two files: it is a parameter,
    from whatever the constructor accepts as a duration. *)
Variable DurationLike : Type.
Variable Duration_create : DurationLike -> Duration.

Definition __init__ (measurement_duration exp_w_duration exp_11_duration : DurationLike)
    (qubits : list GridQubit) : XmonDevice :=
  {| _measurement_duration := Duration_create measurement_duration;
     _exp_w_duration := Duration_create exp_w_duration;
     _exp_z_duration := Duration_create exp_11_duration;
     qubits := list_to_set qubits |}.
End init.

Definition _value_equality_values_ (self : XmonDevice)
    : Duration * Duration * Duration * gset GridQubit :=
  (_measurement_duration self, _exp_w_duration self, _exp_z_duration self, qubits self).

(** [at] is a reserved word here, hence the underscore. *)
Definition at_ (self : XmonDevice) (r c : Z) : option GridQubit :=
  let q := GQ r c in
  if decide (q ∈ qubits self) then Some q else None.

(** [sorted(q for q in self.qubits if q.col == col)]: the set is iterated in
    an order of its own, which the sort makes irrelevant. *)
Definition col (self : XmonDevice) (c : Z) : list GridQubit :=
  merge_sort GridQubit_le (filter (in_col c) (elements (qubits self))).

(** [sorted(q for q in self.qubits if q.row == row)] *)
Definition row (self : XmonDevice) (r : Z) : list GridQubit :=
  merge_sort GridQubit_le (filter (in_row r) (elements (qubits self))).

End XmonDeviceGrid.

Module XmonDeviceSchedule.

Section schedule.
(** [Schedule.operations_happening_at_same_time_as] is not part of the two
    files: it is a parameter. *)
Variable operations_happening_at_same_time_as :
  Schedule -> ScheduledOperation -> list ScheduledOperation.

(** The message here is 'Adjacent Exp11 operations: {} vs {}.'; it is
    recorded with the constructor of the message of [validate_moment], of
    which it differs by its arguments only. *)
Definition validate_scheduled_operation (self : XmonDevice) (schedule : Schedule)
    (scheduled_operation : ScheduledOperation) : Result unit :=
  XmonDevice.validate_operation self (operation scheduled_operation) ;;
  match operation scheduled_operation with
  | OtherOperation _ => Raise AttributeError
  | GateOperation gate _ =>
      if isinstance gate CZPowGate then
        for_each (fun other =>
          letR b := XmonDevice._check_if_exp11_operation_interacts self
                      (operation scheduled_operation) (operation other) in
          if b then Raise (ValueError AdjacentExp11Operations) else Ok tt)
          (operations_happening_at_same_time_as schedule scheduled_operation)
      else Ok tt
  end.

Definition validate_schedule (self : XmonDevice) (schedule : Schedule) : Result unit :=
  _verify_unique_measurement_keys (map operation (scheduled_operations schedule)) ;;
  for_each (validate_scheduled_operation self schedule) (scheduled_operations schedule).
End schedule.

End XmonDeviceSchedule.

(** A gate that has no [_acquaintance_size_] hook and declares no negative
    length or size, and an operation whose gate, if it has one, is such. *)
Definition natural_gate (gate : Gate) : Prop :=
  _acquaintance_size_ gate = None
  /\ match data gate with
     | ShiftSwapNetwork size => 0 <= size
     | SwapNetwork part_lens _ => forall x, In x part_lens -> 0 <= x
     | _ => True
     end.

Definition natural_operation (op : Operation) : Prop :=
  match op with
  | GateOperation gate _ => natural_gate gate
  | OtherOperation _ => True
  end.

(** A gate whose hook answers a negative size. *)
Definition negative_gate : Gate :=
  {| data := Other; _acquaintance_size_ := Some (fun _ => -1) |}.

(** * Properties *)

(** ** Adjacency and neighbours *)

Lemma grid_adjacentb_spec (p q : GridQubit) :
  grid_adjacentb p q = true <-> grid_adjacent p q.
Proof.
  unfold grid_adjacentb, grid_adjacent.
  rewrite !orb_true_iff, !andb_true_iff, !Z.eqb_eq. tauto.
Qed.

Lemma grid_adjacent_sym (p q : GridQubit) : grid_adjacent p q -> grid_adjacent q p.
Proof. unfold grid_adjacent. lia. Qed.

Lemma GridQubit_eq (p q : GridQubit) : row p = row q -> col p = col q -> p = q.
Proof. destruct p, q; simpl; congruence. Qed.

(** C8: [neighbors_of p] holds exactly the cardinal grid neighbours of [p]
    (row +/- 1 at the same column, column +/- 1 at the same row) that are
    members of the device's qubit set; it never holds [p] itself and never
    holds a diagonal position. *)
Theorem neighbors_of_cardinal (self : XmonDevice) (p : GridQubit) :
  (forall q, In q (XmonDevice.neighbors_of self p) <->
             q ∈ qubits self /\ grid_adjacent p q)
  /\ ~ In p (XmonDevice.neighbors_of self p)
  /\ (forall q, diagonal p q -> ~ In q (XmonDevice.neighbors_of self p))
  /\ (length (XmonDevice.neighbors_of self p) <= 4)%nat.
Proof.
  assert (Hchar : forall q, In q (XmonDevice.neighbors_of self p) <->
                            q ∈ qubits self /\ grid_adjacent p q).
  { intros q. unfold XmonDevice.neighbors_of.
    rewrite <- list_elem_of_In, list_elem_of_filter, list_elem_of_In.
    unfold grid_adjacent, GQ. simpl. split.
    - intros [Hq [H | [H | [H | [H | []]]]]]; subst q; simpl; split; auto; lia.
    - intros [Hq H]. split; [exact Hq |].
      destruct H as [[Hr Hc] | [[Hr Hc] | [[Hr Hc] | [Hr Hc]]]];
        [left | right; left | right; right; left | right; right; right; left];
        symmetry; apply GridQubit_eq; simpl; lia. }
  split; [exact Hchar |]. split; [| split].
  - rewrite Hchar. unfold grid_adjacent. lia.
  - intros q [Hr Hc]. rewrite Hchar. unfold grid_adjacent. lia.
  - unfold XmonDevice.neighbors_of.
    etransitivity; [apply length_filter |]. simpl. lia.
Qed.

Example neighbors_of_corner :
  XmonDevice.neighbors_of square_device (GQ 0 0) = [GQ 1 0; GQ 0 1].
Proof. vm_compute. reflexivity. Qed.

(** ** Loops in the [Result] monad *)

Lemma for_each_Ok {A : Type} (f : A -> Result unit) (l : list A) :
  for_each f l = Ok tt <-> Forall (fun x => f x = Ok tt) l.
Proof.
  induction l as [| x l IH]; simpl.
  - split; auto.
  - rewrite Forall_cons. destruct (f x) as [[] | e]; simpl.
    + rewrite IH. tauto.
    + split; [discriminate | intros [H _]; discriminate].
Qed.

Lemma for_each_Raise {A : Type} (f : A -> Result unit) (l : list A) (e : Exception) :
  for_each f l = Raise e -> exists x, In x l /\ f x = Raise e.
Proof.
  induction l as [| x l IH]; simpl; [discriminate |].
  destruct (f x) as [[] | e'] eqn:Hx; simpl.
  - intros H. destruct (IH H) as (y & Hy & Hfy). eauto.
  - intros [= ->]. eauto.
Qed.

Lemma for_each_total {A : Type} (f : A -> Result unit) (l : list A) :
  for_each f l = Ok tt \/ exists e, for_each f l = Raise e.
Proof. destruct (for_each f l) as [[] | e]; eauto. Qed.

Lemma any_of_Ok {A : Type} (f : A -> Result bool) (g : A -> bool) (l : list A) :
  (forall x, In x l -> f x = Ok (g x)) -> any_of f l = Ok (existsb g l).
Proof.
  induction l as [| x l IH]; simpl; intros H; [reflexivity |].
  rewrite (H x) by auto. simpl. destruct (g x); simpl; auto.
Qed.

(** ** The Xmon device: durations *)

(** C6: [duration_of] returns the configured exp11 duration for a two-qubit
    interaction, the configured measurement duration for a measurement, the
    configured exp-w duration for a single-qubit rotation or a phased
    single-qubit rotation, a zero duration for a virtual phase, and fails with
    an unsupported-gate error for every other gate kind. *)
Theorem duration_of_dispatch (self : XmonDevice) (op : Operation) :
  XmonDevice.duration_of self op =
    match op_kind op with
    | two_qubit_interaction => Ok (_exp_z_duration self)
    | measurement => Ok (_measurement_duration self)
    | single_qubit_rotation | phased_single_qubit_rotation => Ok (_exp_w_duration self)
    | virtual_phase => Ok Duration_zero
    | _ => Raise (ValueError UnsupportedGateType)
    end
  /\ error_kind (ValueError UnsupportedGateType) = Some UnsupportedGateError
  /\ total_picos Duration_zero = 0.
Proof.
  split; [| split; reflexivity].
  destruct op as [[d sizer] qs | qs]; [| reflexivity].
  destruct d; reflexivity.
Qed.

(** ** The Xmon device: single operations *)

Lemma validate_gate_allowed (self : XmonDevice) (gate : Gate) :
  XmonDevice.validate_gate self gate =
    if allowed_kind (kind_of gate) then Ok tt else Raise (ValueError UnsupportedGateType).
Proof. destruct gate as [d sizer]. destruct d; reflexivity. Qed.

Lemma validate_qubit_Ok (self : XmonDevice) (q : Qid) :
  XmonDevice.validate_qubit self q = Ok tt <-> on_device self q.
Proof.
  unfold on_device. destruct q as [g | name]; simpl.
  - destruct (decide (g ∈ qubits self)) as [Hin | Hout].
    + split; eauto.
    + split; [discriminate |]. intros (g' & [= <-] & Hin). contradiction.
  - split; [discriminate |]. intros (g' & Hg & _). discriminate.
Qed.

Lemma validate_qubit_Raise (self : XmonDevice) (q : Qid) (e : Exception) :
  XmonDevice.validate_qubit self q = Raise e -> error_kind e = Some QubitNotOnDeviceError.
Proof.
  destruct q as [g | name]; simpl.
  - destruct (decide (g ∈ qubits self)); [discriminate |]. intros [= <-]. reflexivity.
  - intros [= <-]. reflexivity.
Qed.

Lemma validate_qubits_Ok (self : XmonDevice) (qs : list Qid) :
  for_each (XmonDevice.validate_qubit self) qs = Ok tt <->
  (forall q, In q qs -> on_device self q).
Proof.
  rewrite for_each_Ok, List.Forall_forall.
  split; intros H q Hq; apply validate_qubit_Ok; auto.
Qed.

Lemma isinstance_MeasurementGate (gate : Gate) :
  isinstance gate MeasurementGate = bool_decide (kind_of gate = measurement).
Proof. destruct gate as [d sizer]. destruct d; reflexivity. Qed.

(** C1: on a gate operation, [validate_operation] fails with an
    unsupported-gate error when the gate kind is outside the allowed set;
    otherwise with a qubit-not-on-device error when some operand is not a
    position of the topology (not a grid qubit, or a grid qubit outside it);
    otherwise with a non-local-interaction error when there are exactly two
    operands, the gate is not a measurement, and the two positions are not
    adjacent; otherwise it succeeds.  (An operation that carries no gate has
    no gate kind: it is refused before any of this, with an
    unsupported-operation error.) *)
Theorem validate_operation_cases (self : XmonDevice) (gate : Gate) (qs : list Qid) :
  let r := XmonDevice.validate_operation self (GateOperation gate qs) in
  XmonDevice.validate_operation self (OtherOperation qs)
  = Raise (ValueError UnsupportedOperation)
  /\ error_kind (ValueError UnsupportedGateType) = Some UnsupportedGateError
  /\ error_kind (ValueError NonLocalInteraction) = Some NonLocalInteractionError
  /\ (allowed_kind (kind_of gate) = false -> r = Raise (ValueError UnsupportedGateType))
  /\ (allowed_kind (kind_of gate) = true ->
      (exists q, In q qs /\ ~ on_device self q) ->
      fails_with r QubitNotOnDeviceError)
  /\ (allowed_kind (kind_of gate) = true ->
      (forall q, In q qs -> on_device self q) ->
      non_local gate qs ->
      r = Raise (ValueError NonLocalInteraction))
  /\ (allowed_kind (kind_of gate) = true ->
      (forall q, In q qs -> on_device self q) ->
      ~ non_local gate qs ->
      r = Ok tt).
Proof.
  intros r. subst r.
  do 3 (split; [reflexivity |]).
  unfold XmonDevice.validate_operation.
  rewrite validate_gate_allowed.
  destruct (allowed_kind (kind_of gate)) eqn:Hallowed; simpl.
  2: { repeat split; intros; congruence. }
  split; [discriminate |]. split; [| split].
  - intros _ (q & Hq & Hoff).
    destruct (for_each (XmonDevice.validate_qubit self) qs) as [[] | e] eqn:Hloop.
    + exfalso. apply Hoff. apply (proj1 (validate_qubits_Ok self qs) Hloop), Hq.
    + simpl. destruct (for_each_Raise _ _ _ Hloop) as (x & _ & Hx).
      exists e. split; [reflexivity |]. eapply validate_qubit_Raise, Hx.
  - intros _ Hon (Hkind & p & q & -> & Hfar).
    rewrite (proj2 (validate_qubits_Ok self _) Hon). simpl bind.
    rewrite isinstance_MeasurementGate, bool_decide_eq_false_2 by exact Hkind.
    simpl. destruct (grid_adjacentb p q) eqn:Hadj; [| reflexivity].
    apply grid_adjacentb_spec in Hadj. contradiction.
  - intros _ Hon Hlocal.
    rewrite (proj2 (validate_qubits_Ok self _) Hon). simpl bind.
    destruct qs as [| a [| b [| c qs]]]; try reflexivity.
    rewrite isinstance_MeasurementGate.
    destruct (decide (kind_of gate = measurement)) as [Hm | Hm].
    { rewrite bool_decide_eq_true_2 by exact Hm. reflexivity. }
    rewrite bool_decide_eq_false_2 by exact Hm. simpl.
    destruct (Hon a) as (p & -> & _); [simpl; auto |].
    destruct (Hon b) as (q & -> & _); [simpl; auto |].
    simpl. destruct (grid_adjacentb p q) eqn:Hadj; [reflexivity |].
    exfalso. apply Hlocal. split; [exact Hm |]. exists p, q. split; [reflexivity |].
    rewrite <- grid_adjacentb_spec, Hadj. discriminate.
Qed.

(** ** The Xmon device: crosstalk between operations *)

Lemma some_adjacentb_spec (qsA qsB : list GridQubit) :
  some_adjacentb qsA qsB = true <-> some_adjacent qsA qsB.
Proof.
  unfold some_adjacentb, some_adjacent. rewrite existsb_exists. split.
  - intros (q & Hq & H). apply existsb_exists in H as (p & Hp & H).
    apply grid_adjacentb_spec in H. eauto.
  - intros (q & p & Hq & Hp & H). exists q. split; [exact Hq |].
    apply existsb_exists. exists p. split; [exact Hp |]. apply grid_adjacentb_spec, H.
Qed.

Lemma isinstance_non_interacting (gate : Gate) :
  isinstance_any gate [XPowGate; YPowGate; PhasedXPowGate; MeasurementGate; ZPowGate]
  = non_interacting (kind_of gate).
Proof. destruct gate as [d sizer]. destruct d; reflexivity. Qed.

Lemma any_of_app {A : Type} (f : A -> Result bool) (l1 l2 : list A) :
  any_of f (l1 ++ l2) = letR b := any_of f l1 in if b then Ok true else any_of f l2.
Proof.
  induction l1 as [| x l1 IH]; simpl; [reflexivity |].
  destruct (f x) as [[|] | e]; simpl; auto.
Qed.

Lemma any_of_row (q : GridQubit) (qsB : list GridQubit) :
  any_of (fun qp => call_is_adjacent (fst qp) (snd qp))
    (map (fun p => (Grid q, p)) (map Grid qsB))
  = Ok (existsb (grid_adjacentb q) qsB).
Proof.
  induction qsB as [| p qsB IH]; simpl; [reflexivity |].
  destruct (grid_adjacentb q p); simpl; [reflexivity | exact IH].
Qed.

Lemma any_of_pairs (qsA qsB : list GridQubit) :
  any_of (fun qp => call_is_adjacent (fst qp) (snd qp))
    (flat_map (fun q => map (fun p => (q, p)) (map Grid qsB)) (map Grid qsA))
  = Ok (some_adjacentb qsA qsB).
Proof.
  unfold some_adjacentb.
  induction qsA as [| q qsA IH]; simpl; [reflexivity |].
  rewrite any_of_app, any_of_row, IH. simpl.
  destruct (existsb (grid_adjacentb q) qsB); reflexivity.
Qed.

Lemma interacts_grid (self : XmonDevice) (opA : Operation) (gateB : Gate)
    (qsA qsB : list GridQubit) :
  qubits_of opA = map Grid qsA ->
  XmonDevice._check_if_exp11_operation_interacts self opA (GateOperation gateB (map Grid qsB))
  = Ok (negb (non_interacting (kind_of gateB)) && some_adjacentb qsA qsB).
Proof.
  intros HA. unfold XmonDevice._check_if_exp11_operation_interacts.
  rewrite isinstance_non_interacting, HA.
  destruct (non_interacting (kind_of gateB)); simpl; [reflexivity |].
  apply any_of_pairs.
Qed.

(** C2: [interacts(opA, opB)] is false whenever the gate kind of [opB] is in
    the non-interacting set, whatever the operands; otherwise it is true if
    and only if some operand of [opA] is grid-adjacent to some operand of
    [opB]. *)
Theorem interacts_rule (self : XmonDevice) (gateA gateB : Gate) :
  (non_interacting (kind_of gateB) = true ->
   forall (opA : Operation) (qsB : list Qid),
     XmonDevice._check_if_exp11_operation_interacts self opA (GateOperation gateB qsB)
     = Ok false)
  /\ (non_interacting (kind_of gateB) = false ->
      forall qsA qsB : list GridQubit,
      exists b : bool,
        XmonDevice._check_if_exp11_operation_interacts self
          (GateOperation gateA (map Grid qsA)) (GateOperation gateB (map Grid qsB))
        = Ok b
        /\ (b = true <-> some_adjacent qsA qsB)).
Proof.
  split.
  - intros Hnon opA qsB. unfold XmonDevice._check_if_exp11_operation_interacts.
    rewrite isinstance_non_interacting, Hnon. reflexivity.
  - intros Hnon qsA qsB. exists (some_adjacentb qsA qsB). split.
    + rewrite (interacts_grid self _ gateB qsA qsB) by reflexivity.
      rewrite Hnon. reflexivity.
    + apply some_adjacentb_spec.
Qed.

(** ** The Xmon device: moments *)

Lemma for_each_one_error {A : Type} (f : A -> Result unit) (l : list A) (e0 : Exception) :
  (forall x, In x l -> f x = Ok tt \/ f x = Raise e0) ->
  (for_each f l = Raise e0 <-> exists x, In x l /\ f x = Raise e0)
  /\ (for_each f l = Ok tt <-> ~ exists x, In x l /\ f x = Raise e0).
Proof.
  induction l as [| x l IH]; simpl; intros Hf.
  - split; split; try discriminate; try tauto.
    + intros (x & [] & _).
    + intros _ (x & [] & _).
  - destruct IH as [IHr IHo]; [intros y Hy; apply Hf; auto |].
    destruct (Hf x) as [Hx | Hx]; [auto | |]; rewrite Hx; simpl.
    + split.
      * rewrite IHr. split.
        -- intros (y & Hy & Hfy). eauto.
        -- intros (y & [<- | Hy] & Hfy); [congruence | eauto].
      * rewrite IHo. split.
        -- intros Hno (y & [<- | Hy] & Hfy); [congruence | apply Hno; eauto].
        -- intros Hno (y & Hy & Hfy). apply Hno; eauto.
    + split.
      * split; eauto.
      * split; [discriminate |]. intros Hno. exfalso. apply Hno. eauto.
Qed.

Lemma on_device_grid (self : XmonDevice) (qs : list Qid) :
  (forall q, In q qs -> on_device self q) ->
  exists gs : list GridQubit, qs = map Grid gs /\ forall g, In g gs -> g ∈ qubits self.
Proof.
  induction qs as [| q qs IH]; intros Hon.
  - exists []. split; [reflexivity | intros g []].
  - destruct (Hon q) as (g & -> & Hg); [simpl; auto |].
    destruct IH as (gs & -> & Hgs); [intros; apply Hon; simpl; auto |].
    exists (g :: gs). split; [reflexivity |]. intros g' [<- | Hg']; auto.
Qed.

(** What a successful [validate_operation] says of the operation. *)
Lemma validate_operation_Ok_inv (self : XmonDevice) (op : Operation) :
  XmonDevice.validate_operation self op = Ok tt ->
  exists gate gs, op = GateOperation gate (map Grid gs)
                  /\ allowed_kind (kind_of gate) = true
                  /\ forall g, In g gs -> g ∈ qubits self.
Proof.
  destruct op as [gate qs | qs]; simpl; [| discriminate].
  rewrite validate_gate_allowed.
  destruct (allowed_kind (kind_of gate)) eqn:Hallowed; simpl; [| discriminate].
  destruct (for_each (XmonDevice.validate_qubit self) qs) as [[] | e] eqn:Hloop;
    simpl; [| discriminate].
  intros _. pose proof (proj1 (validate_qubits_Ok self qs) Hloop) as Hon.
  apply on_device_grid in Hon as (gs & -> & Hgs). eauto.
Qed.

Lemma interacts_valid (self : XmonDevice) (a b : Operation) :
  XmonDevice.validate_operation self a = Ok tt ->
  XmonDevice.validate_operation self b = Ok tt ->
  exists r : bool, XmonDevice._check_if_exp11_operation_interacts self a b = Ok r.
Proof.
  intros Ha Hb.
  apply validate_operation_Ok_inv in Ha as (gateA & gsA & -> & _ & _).
  apply validate_operation_Ok_inv in Hb as (gateB & gsB & -> & _ & _).
  eexists. apply (interacts_grid self _ gateB gsA gsB). reflexivity.
Qed.

Lemma truthy_CZPowGate (op : Operation) :
  truthy (op_gate_of_type op CZPowGate) = bool_decide (op_kind op = two_qubit_interaction).
Proof.
  destruct op as [[d sizer] qs | qs]; [| reflexivity]. destruct d; reflexivity.
Qed.

Lemma check_exp11_conflicts_valid (self : XmonDevice) (ops : list OpObject) :
  (forall o, In o ops -> XmonDevice.validate_operation self (this o) = Ok tt) ->
  (XmonDevice.check_exp11_conflicts self ops = Raise (ValueError AdjacentExp11Operations)
   <-> conflict self ops)
  /\ (XmonDevice.check_exp11_conflicts self ops = Ok tt <-> ~ conflict self ops).
Proof.
  intros Hvalid. unfold XmonDevice.check_exp11_conflicts.
  set (inner := fun op other : OpObject =>
    if bool_decide (addr other <> addr op) then
      letR b := XmonDevice._check_if_exp11_operation_interacts self (this op) (this other) in
      if b then Raise (ValueError AdjacentExp11Operations) else Ok tt
    else Ok tt).
  set (outer := fun op : OpObject =>
    if truthy (op_gate_of_type (this op) CZPowGate) then for_each (inner op) ops else Ok tt).
  assert (Hinner : forall op other, In op ops -> In other ops ->
            (inner op other = Ok tt \/ inner op other = Raise (ValueError AdjacentExp11Operations))
            /\ (inner op other = Raise (ValueError AdjacentExp11Operations) <->
                addr other <> addr op
                /\ XmonDevice._check_if_exp11_operation_interacts self (this op) (this other)
                   = Ok true)).
  { intros op other Hop Hother. unfold inner.
    destruct (interacts_valid self (this op) (this other)) as [r Hr]; auto.
    rewrite Hr. simpl.
    destruct (decide (addr other <> addr op)) as [Hne | Heq].
    - rewrite bool_decide_eq_true_2 by exact Hne.
      destruct r; split; auto; split; try tauto; try discriminate.
      intros [_ [=]].
    - rewrite bool_decide_eq_false_2 by exact Heq.
      split; auto. split; [discriminate | tauto]. }
  assert (Houter : forall op, In op ops ->
            (outer op = Ok tt \/ outer op = Raise (ValueError AdjacentExp11Operations))
            /\ (outer op = Raise (ValueError AdjacentExp11Operations) <->
                op_kind (this op) = two_qubit_interaction
                /\ exists other, In other ops /\ addr other <> addr op
                   /\ XmonDevice._check_if_exp11_operation_interacts self (this op) (this other)
                      = Ok true)).
  { intros op Hop. unfold outer. rewrite truthy_CZPowGate.
    destruct (decide (op_kind (this op) = two_qubit_interaction)) as [Hcz | Hcz].
    - rewrite bool_decide_eq_true_2 by exact Hcz.
      destruct (for_each_one_error (inner op) ops (ValueError AdjacentExp11Operations))
        as [Hr Ho]; [intros y Hy; apply Hinner; auto |].
      split.
      + destruct (for_each (inner op) ops) as [[] | e] eqn:Hloop; [auto |].
        right. apply for_each_Raise in Hloop as (y & Hy & Hfy).
        destruct (proj1 (Hinner op y Hop Hy)) as [H | H]; congruence.
      + rewrite Hr. split.
        * intros (y & Hy & Hfy). apply Hinner in Hfy; auto.
          split; [exact Hcz |]. exists y. tauto.
        * intros (_ & y & Hy & Hne & Hint). exists y. split; [exact Hy |].
          apply Hinner; auto.
    - rewrite bool_decide_eq_false_2 by exact Hcz.
      split; auto. split; [discriminate | tauto]. }
  change (for_each _ ops) with (for_each outer ops).
  destruct (for_each_one_error outer ops (ValueError AdjacentExp11Operations))
    as [Hr Ho]; [intros y Hy; apply Houter; auto |].
  assert (Hiff : (exists x, In x ops /\ outer x = Raise (ValueError AdjacentExp11Operations))
                 <-> conflict self ops).
  { unfold conflict. split.
    - intros (op & Hop & Hf). apply Houter in Hf as (Hcz & other & Hother & Hne & Hint); auto.
      exists op, other. tauto.
    - intros (op & other & Hop & Hother & Hne & Hcz & Hint).
      exists op. split; [exact Hop |]. apply Houter; eauto. }
  rewrite Hr, Ho, Hiff. tauto.
Qed.

Lemma base_validate_moment_Ok (self : XmonDevice) (moment : Moment) :
  Device.validate_moment (XmonDevice.validate_operation self) moment = Ok tt <->
  (forall o, In o (operations moment) -> XmonDevice.validate_operation self (this o) = Ok tt).
Proof. unfold Device.validate_moment. rewrite for_each_Ok, List.Forall_forall. tauto. Qed.

Lemma validate_moment_valid (self : XmonDevice) (moment : Moment) :
  (forall o, In o (operations moment) -> XmonDevice.validate_operation self (this o) = Ok tt) ->
  XmonDevice.validate_moment self moment
  = XmonDevice.check_exp11_conflicts self (operations moment).
Proof.
  intros Hvalid. unfold XmonDevice.validate_moment.
  rewrite (proj2 (base_validate_moment_Ok self moment) Hvalid). reflexivity.
Qed.

Lemma two_interactions_result :
  XmonDevice.validate_moment square_device two_interactions
  = Raise (ValueError AdjacentExp11Operations).
Proof. vm_compute. reflexivity. Qed.

Lemma four_rotations_result :
  XmonDevice.validate_moment square_device four_rotations = Ok tt.
Proof. vm_compute. reflexivity. Qed.

(** C3: for a moment whose operations are each valid, [validate_moment] fails
    with an adjacent-interaction error if and only if some two-qubit
    interaction of the moment conflicts, by the [interacts] rule, with some
    other operation object of the moment, and succeeds otherwise.  On the
    topology (0,0), (0,1), (1,0), (1,1), two-qubit interactions on
    (0,0),(0,1) and on (1,0),(1,1) in one moment fail with that error, and
    single-qubit rotations on the four positions succeed. *)
Theorem validate_moment_adjacent_interactions :
  (forall (self : XmonDevice) (moment : Moment),
     (forall o, In o (operations moment) ->
                XmonDevice.validate_operation self (this o) = Ok tt) ->
     (XmonDevice.validate_moment self moment = Raise (ValueError AdjacentExp11Operations)
      <-> conflict self (operations moment))
     /\ (XmonDevice.validate_moment self moment = Ok tt
         <-> ~ conflict self (operations moment)))
  /\ error_kind (ValueError AdjacentExp11Operations) = Some AdjacentInteractionError
  /\ XmonDevice.validate_moment square_device two_interactions
     = Raise (ValueError AdjacentExp11Operations)
  /\ XmonDevice.validate_moment square_device four_rotations = Ok tt.
Proof.
  split; [| split; [reflexivity | split]].
  - intros self moment Hvalid. rewrite validate_moment_valid by exact Hvalid.
    apply check_exp11_conflicts_valid, Hvalid.
  - exact two_interactions_result.
  - exact four_rotations_result.
Qed.

Lemma validate_moment_adjacent_interactions_witness :
  conflict square_device (operations two_interactions)
  /\ XmonDevice.validate_moment square_device two_interactions
     = Raise (ValueError AdjacentExp11Operations).
Proof.
  assert (Hc : conflict square_device (operations two_interactions)).
  { exists {| addr := 0; this := GateOperation (plain CZPow) [Grid (GQ 0 0); Grid (GQ 0 1)] |},
           {| addr := 1; this := GateOperation (plain CZPow) [Grid (GQ 1 0); Grid (GQ 1 1)] |}.
    simpl. repeat split; auto. }
  split; [exact Hc |].
  apply (proj1 validate_moment_adjacent_interactions square_device two_interactions).
  - intros o [<- | [<- | []]]; vm_compute; reflexivity.
  - exact Hc.
Defined.

(** ** The Xmon device: adding an operation to a moment *)

Lemma any_of_total {A : Type} (f : A -> Result bool) (l : list A) :
  (forall x, In x l -> exists b, f x = Ok b) ->
  exists b, any_of f l = Ok b /\ (b = true <-> exists x, In x l /\ f x = Ok true).
Proof.
  induction l as [| x l IH]; simpl; intros Hf.
  - exists false. split; [reflexivity |]. split; [discriminate | intros (x & [] & _)].
  - destruct (Hf x) as [bx Hx]; [auto |]. rewrite Hx. simpl.
    destruct bx.
    + exists true. split; [reflexivity |]. split; eauto.
    + destruct IH as (b & Hb & Hiff); [intros; apply Hf; auto |].
      exists b. split; [exact Hb |]. rewrite Hiff. split.
      * intros (y & Hy & Hfy). eauto.
      * intros (y & [<- | Hy] & Hfy); [congruence | eauto].
Qed.

Lemma validate_moment_Ok_valid (self : XmonDevice) (moment : Moment) :
  XmonDevice.validate_moment self moment = Ok tt ->
  forall o, In o (operations moment) -> XmonDevice.validate_operation self (this o) = Ok tt.
Proof.
  unfold XmonDevice.validate_moment. intros H.
  apply base_validate_moment_Ok.
  destruct (Device.validate_moment _ moment) as [[] | e]; [reflexivity | discriminate].
Qed.

(** C4, as the code has it: [can_add_operation_into_moment] fails with the
    error of [validate_moment] when validating the existing moment fails;
    otherwise it returns false when the base class's check refuses the
    operation; otherwise, for a two-qubit interaction on grid positions, it
    returns false when the operation conflicts with some operation of the
    moment and true when it conflicts with none; and it returns true for
    every operation of another kind.  The moment is only read. *)
Theorem can_add_operation_into_moment_cases
    (super : Operation -> Moment -> bool) (self : XmonDevice)
    (op : Operation) (moment : Moment) :
  let r := XmonDevice.can_add_operation_into_moment super self op moment in
  (forall e, XmonDevice.validate_moment self moment = Raise e -> r = Raise e)
  /\ (XmonDevice.validate_moment self moment = Ok tt ->
      (super op moment = false -> r = Ok false)
      /\ (super op moment = true -> op_kind op <> two_qubit_interaction -> r = Ok true)
      /\ (super op moment = true -> op_kind op = two_qubit_interaction ->
          (exists gs, qubits_of op = map Grid gs) ->
          (conflicts_with_any self op (operations moment) -> r = Ok false)
          /\ (~ conflicts_with_any self op (operations moment) -> r = Ok true))).
Proof.
  intros r. subst r. unfold XmonDevice.can_add_operation_into_moment.
  split; [intros e ->; reflexivity |].
  intros Hm. rewrite Hm. simpl bind. rewrite truthy_CZPowGate.
  split; [intros ->; reflexivity |].
  split.
  - intros -> Hkind. simpl. rewrite bool_decide_eq_false_2 by exact Hkind. reflexivity.
  - intros -> Hkind (gs & Hgs). simpl. rewrite bool_decide_eq_true_2 by exact Hkind.
    unfold XmonDevice._check_if_exp11_operation_interacts_with_any.
    destruct (any_of_total (XmonDevice._check_if_exp11_operation_interacts self op)
                (map this (operations moment))) as (b & Hb & Hiff).
    { intros x Hx. apply in_map_iff in Hx as (o & <- & Ho).
      pose proof (validate_moment_Ok_valid self moment Hm o Ho) as Hvalid.
      apply validate_operation_Ok_inv in Hvalid as (gateB & gsB & -> & _ & _).
      eexists. apply (interacts_grid self op gateB gs gsB), Hgs. }
    rewrite Hb. simpl.
    assert (Hany : b = true <-> conflicts_with_any self op (operations moment)).
    { rewrite Hiff. unfold conflicts_with_any. split.
      - intros (x & Hx & Hfx). apply in_map_iff in Hx as (o & <- & Ho). eauto.
      - intros (o & Ho & Hfo). exists (this o). split; [apply in_map, Ho | exact Hfo]. }
    split.
    + intros Hc. apply Hany in Hc as ->. reflexivity.
    + intros Hc. destruct b; [exfalso; apply Hc, Hany; reflexivity | reflexivity].
Qed.

Lemma can_add_operation_into_moment_cases_witness :
  XmonDevice.can_add_operation_into_moment (fun _ _ => true) square_device
    (GateOperation (plain XPow) [Grid (GQ 0 0)]) two_interactions
  = Raise (ValueError AdjacentExp11Operations)
  /\ XmonDevice.can_add_operation_into_moment (fun _ _ => true) square_device
       (GateOperation (plain CZPow) [Grid (GQ 1 0); Grid (GQ 1 1)]) one_interaction
     = Ok false
  /\ XmonDevice.can_add_operation_into_moment (fun _ _ => true) square_device
       (GateOperation (plain XPow) [Grid (GQ 1 0)]) one_interaction
     = Ok true.
Proof.
  split; [| split].
  - apply (proj1 (can_add_operation_into_moment_cases (fun _ _ => true) square_device
                    (GateOperation (plain XPow) [Grid (GQ 0 0)]) two_interactions)).
    vm_compute. reflexivity.
  - destruct (can_add_operation_into_moment_cases (fun _ _ => true) square_device
                (GateOperation (plain CZPow) [Grid (GQ 1 0); Grid (GQ 1 1)])
                one_interaction) as [_ Hvalid].
    destruct Hvalid as (_ & _ & Hcz); [vm_compute; reflexivity |].
    apply Hcz.
    + reflexivity.
    + reflexivity.
    + exists [GQ 1 0; GQ 1 1]. reflexivity.
    + eexists. split; [left; reflexivity |]. vm_compute. reflexivity.
  - destruct (can_add_operation_into_moment_cases (fun _ _ => true) square_device
                (GateOperation (plain XPow) [Grid (GQ 1 0)]) one_interaction)
      as [_ Hvalid].
    destruct Hvalid as (_ & Hother & _); [vm_compute; reflexivity |].
    apply Hother.
    + reflexivity.
    + intros H. vm_compute in H. discriminate H.
Defined.

(** C4 as the specification words it fails: when validating the existing
    moment fails, the call does not return false, it raises. *)
Lemma can_add_operation_into_invalid_moment_raises :
  ~ (forall (super : Operation -> Moment -> bool) (self : XmonDevice)
            (op : Operation) (moment : Moment),
       XmonDevice.validate_moment self moment <> Ok tt ->
       XmonDevice.can_add_operation_into_moment super self op moment = Ok false).
Proof.
  intros H.
  specialize (H (fun _ _ => true) square_device
                (GateOperation (plain XPow) [Grid (GQ 0 0)]) two_interactions).
  rewrite two_interactions_result in H.
  assert (Hr : XmonDevice.can_add_operation_into_moment (fun _ _ => true) square_device
                 (GateOperation (plain XPow) [Grid (GQ 0 0)]) two_interactions
               = Raise (ValueError AdjacentExp11Operations)) by (vm_compute; reflexivity).
  rewrite Hr in H. discriminate H. discriminate.
Qed.

(** ** Acquaintance size *)

Lemma fold_left_max (rest : list Z) (x : Z) :
  In (fold_left Z.max rest x) (x :: rest)
  /\ forall y, In y (x :: rest) -> y <= fold_left Z.max rest x.
Proof.
  revert x. induction rest as [| z rest IH]; intros x; simpl.
  - split; [auto |]. intros y [<- | []]. lia.
  - destruct (IH (Z.max x z)) as [Hin Hle]. split.
    + destruct Hin as [Hin | Hin]; [| auto].
      rewrite <- Hin. destruct (Z.max_spec x z) as [[_ ->] | [_ ->]]; auto.
    + intros y [<- | [<- | Hy]].
      * etransitivity; [| apply Hle; left; reflexivity]. lia.
      * etransitivity; [| apply Hle; left; reflexivity]. lia.
      * apply Hle. right. exact Hy.
Qed.

Lemma max_or_zero_spec (l : list Z) : max_of_or_zero l (max_or_zero l).
Proof. destruct l as [| x rest]; [reflexivity |]. apply fold_left_max. Qed.

Lemma sorted_last_two (l : list Z) :
  (2 <= length l)%nat ->
  exists a b rest,
    l ≡ₚ a :: b :: rest
    /\ Forall (fun x => x <= a /\ x <= b) rest
    /\ last_two (sorted l) = [a; b].
Proof.
  intros Hlen. unfold last_two, sorted.
  pose proof (merge_sort_Permutation Z.le l) as Hperm.
  pose proof (StronglySorted_merge_sort Z.le l) as Hsorted.
  set (s := merge_sort Z.le l) in *.
  assert (Hs : length s = length l) by (apply Permutation_length, Hperm).
  set (n := (length s - 2)%nat).
  assert (Hsplit : s = take n s ++ drop n s) by (symmetry; apply take_drop).
  assert (Hdrop : length (drop n s) = 2%nat) by (rewrite length_drop; unfold n; lia).
  destruct (drop n s) as [| a [| b [| c tl]]]; try discriminate.
  exists a, b, (take n s). split; [| split; [| reflexivity]].
  - rewrite <- Hperm, Hsplit at 1. apply Permutation_app_comm.
  - rewrite Hsplit in Hsorted.
    apply Forall_forall. intros x Hx.
    split; apply (StronglySorted_app_1_elem_of _ _ _ _ _ Hsorted); auto; set_solver.
Qed.

Lemma operation_size_two_largest (gate : Gate) (qs : list Qid) (part_lens : list Z) :
  data gate = SwapNetwork part_lens None ->
  sum_of_two_largest part_lens (operation_acquaintance_size (GateOperation gate qs)).
Proof.
  intros Hdata. simpl. rewrite Hdata.
  destruct part_lens as [| a [| b rest]]; [reflexivity | reflexivity |].
  destruct (sorted_last_two (a :: b :: rest)) as (x & y & others & Hperm & Hle & Hlast);
    [simpl; lia |].
  unfold sum_of_two_largest. exists x, y, others.
  split; [exact Hperm |]. split; [exact Hle |].
  rewrite Hlast. unfold sum. simpl. lia.
Qed.

(** C5: the acquaintance size of an acquaintance-opportunity operation on k
    operands is k; of a bipartite-swap-network operation it is 2, whatever the
    operands; of a generic-swap-network operation with no target size it is
    the sum of the two largest partition lengths, and with a target size t it
    is t when t - 1 is among the partition lengths, and otherwise what the
    gate's size-given-operand-count hook returns, 0 when the gate has none;
    for a circuit the query fails with a type error unless the circuit is an
    acquaintance strategy, and otherwise returns the maximum size over the
    operations of the circuit, 0 for an empty circuit. *)
Theorem acquaintance_size_cases :
  (forall gate qs, kind_of gate = acquaintance_opportunity ->
     get_acquaintance_size (OperationObject (GateOperation gate qs))
     = Ok (Z.of_nat (length qs)))
  /\ (forall gate qs, kind_of gate = bipartite_swap_network ->
        get_acquaintance_size (OperationObject (GateOperation gate qs)) = Ok 2)
  /\ (forall gate qs part_lens, data gate = SwapNetwork part_lens None ->
        exists s, get_acquaintance_size (OperationObject (GateOperation gate qs)) = Ok s
                  /\ sum_of_two_largest part_lens s)
  /\ (forall gate qs part_lens t, data gate = SwapNetwork part_lens (Some t) ->
        In (t - 1) part_lens ->
        get_acquaintance_size (OperationObject (GateOperation gate qs)) = Ok t)
  /\ (forall gate qs part_lens t, data gate = SwapNetwork part_lens (Some t) ->
        ~ In (t - 1) part_lens ->
        get_acquaintance_size (OperationObject (GateOperation gate qs))
        = Ok (match _acquaintance_size_ gate with
              | Some sizer => sizer (Z.of_nat (length qs))
              | None => 0
              end))
  /\ (forall circuit, is_acquaintance_strategy circuit = false ->
        get_acquaintance_size (CircuitObject circuit)
        = Raise (TypeError NotAcquaintanceStrategy)
        /\ fails_with (get_acquaintance_size (CircuitObject circuit)) TypeMismatchError)
  /\ (forall circuit, is_acquaintance_strategy circuit = true ->
        exists m sizes,
          get_acquaintance_size (CircuitObject circuit) = Ok m
          /\ Forall2 (fun op s => get_acquaintance_size (OperationObject op) = Ok s)
               (all_operations circuit) sizes
          /\ max_of_or_zero sizes m).
Proof.
  split; [| split; [| split; [| split; [| split; [| split]]]]].
  - intros [d sizer] qs Hkind. destruct d; try discriminate. reflexivity.
  - intros [d sizer] qs Hkind. destruct d; try discriminate. reflexivity.
  - intros gate qs part_lens Hdata. eexists. split; [reflexivity |].
    apply operation_size_two_largest, Hdata.
  - intros gate qs part_lens t Hdata Hin. simpl. rewrite Hdata.
    rewrite bool_decide_eq_true_2; [reflexivity |]. apply list_elem_of_In, Hin.
  - intros gate qs part_lens t Hdata Hout. simpl. rewrite Hdata.
    rewrite bool_decide_eq_false_2; [reflexivity |]. rewrite list_elem_of_In. exact Hout.
  - intros circuit Hacq.
    assert (Hr : get_acquaintance_size (CircuitObject circuit)
                 = Raise (TypeError NotAcquaintanceStrategy))
      by (simpl; rewrite Hacq; reflexivity).
    split; [exact Hr |]. exists (TypeError NotAcquaintanceStrategy).
    split; [exact Hr | reflexivity].
  - intros circuit Hacq.
    exists (max_or_zero (map operation_acquaintance_size (all_operations circuit))),
           (map operation_acquaintance_size (all_operations circuit)).
    split; [simpl; rewrite Hacq; reflexivity |]. split; [| apply max_or_zero_spec].
    induction (all_operations circuit) as [| op ops IH]; simpl; constructor; auto.
Qed.

Example strategy_circuit_size :
  get_acquaintance_size (CircuitObject strategy_circuit) = Ok 3.
Proof. vm_compute. reflexivity. Qed.

Example empty_strategy_circuit_size :
  get_acquaintance_size (CircuitObject empty_strategy_circuit) = Ok 0.
Proof. reflexivity. Qed.

Example swap_network_two_largest :
  get_acquaintance_size
    (OperationObject (GateOperation (plain (SwapNetwork [3; 1; 2; 3] None)) [])) = Ok 6.
Proof. vm_compute. reflexivity. Qed.

Example swap_network_falls_through :
  get_acquaintance_size
    (OperationObject (GateOperation (plain (SwapNetwork [3; 1] (Some 3))) [])) = Ok 0.
Proof. vm_compute. reflexivity. Qed.

(** ** Measurement keys *)

Lemma keys_of_cons (op : Operation) (ops : list Operation) :
  keys_of (op :: ops) =
    match measurement_key_of op with
    | Some k => k :: keys_of ops
    | None => keys_of ops
    end.
Proof. reflexivity. Qed.

Lemma keys_of_app (l1 l2 : list Operation) : keys_of (l1 ++ l2) = keys_of l1 ++ keys_of l2.
Proof. apply omap_app. Qed.

Lemma verify_from_Ok (seen : gset string) (ops : list Operation) :
  verify_unique_measurement_keys_from seen ops = Ok tt <->
  NoDup (keys_of ops) /\ forall x, x ∈ keys_of ops -> x ∉ seen.
Proof.
  revert seen. induction ops as [| op ops IH]; intros seen;
    cbn [verify_unique_measurement_keys_from].
  - split; [intros _ | reflexivity]. split; [constructor | set_solver].
  - rewrite keys_of_cons. destruct (measurement_key_of op) as [k |]; [| apply IH].
    destruct (decide (k ∈ seen)) as [Hin | Hout].
    + split; [discriminate |]. intros [_ H]. exfalso. apply (H k); set_solver.
    + rewrite IH, NoDup_cons. split.
      * intros [Hnd H]. split; [split; [| exact Hnd] |].
        -- intros Hk. apply (H k Hk). set_solver.
        -- intros x [-> | Hx]%elem_of_cons; [exact Hout |].
           specialize (H x Hx). set_solver.
      * intros [[Hk Hnd] H]. split; [exact Hnd |].
        intros x Hx. specialize (H x). set_solver.
Qed.

Lemma verify_from_total (seen : gset string) (ops : list Operation) :
  verify_unique_measurement_keys_from seen ops = Ok tt
  \/ exists k, verify_unique_measurement_keys_from seen ops
               = Raise (ValueError (MeasurementKeyRepeated k)).
Proof.
  revert seen. induction ops as [| op ops IH]; intros seen;
    cbn [verify_unique_measurement_keys_from]; [auto |].
  destruct (measurement_key_of op) as [k |]; [| apply IH].
  destruct (decide (k ∈ seen)); [eauto | apply IH].
Qed.

Lemma verify_from_Raise (seen : gset string) (ops : list Operation) (k : string) :
  verify_unique_measurement_keys_from seen ops = Raise (ValueError (MeasurementKeyRepeated k))
  <-> exists pre op post,
        ops = pre ++ op :: post
        /\ measurement_key_of op = Some k
        /\ NoDup (keys_of pre)
        /\ (forall x, x ∈ keys_of pre -> x ∉ seen)
        /\ (k ∈ keys_of pre \/ k ∈ seen).
Proof.
  revert seen. induction ops as [| op ops IH]; intros seen;
    cbn [verify_unique_measurement_keys_from].
  - split; [discriminate |]. intros (pre & o & post & H & _). destruct pre; discriminate.
  - destruct (measurement_key_of op) as [k0 |] eqn:Hkey.
    + destruct (decide (k0 ∈ seen)) as [Hin | Hout].
      * split.
        -- intros [= ->]. exists [], op, ops. simpl.
           repeat split; auto; [constructor | set_solver].
        -- intros (pre & o & post & Heq & Hko & Hnd & Hdisj & Hk).
           destruct pre as [| p pre]; simpl in Heq;
             [injection Heq as <- <- | injection Heq as <- ->].
           ++ congruence.
           ++ exfalso. rewrite keys_of_cons, Hkey in Hdisj. apply (Hdisj k0); set_solver.
      * rewrite IH. split.
        -- intros (pre & o & post & -> & Hko & Hnd & Hdisj & Hk).
           exists (op :: pre), o, post. rewrite keys_of_cons, Hkey.
           split; [reflexivity |]. split; [exact Hko |]. split; [| split].
           ++ apply NoDup_cons. split; [| exact Hnd].
              intros Hx. specialize (Hdisj k0 Hx). set_solver.
           ++ intros x [-> | Hx]%elem_of_cons; [exact Hout |].
              specialize (Hdisj x Hx). set_solver.
           ++ set_solver.
        -- intros (pre & o & post & Heq & Hko & Hnd & Hdisj & Hk).
           destruct pre as [| p pre]; simpl in Heq;
             [injection Heq as <- <- | injection Heq as <- ->].
           ++ exfalso. rewrite Hkey in Hko. injection Hko as ->.
              simpl in Hk. set_solver.
           ++ rewrite keys_of_cons, Hkey in Hnd, Hdisj, Hk.
              apply NoDup_cons in Hnd as [Hfresh Hnd].
              exists pre, o, post. split; [reflexivity |]. split; [exact Hko |].
              split; [exact Hnd |]. split.
              ** intros x Hx. assert (x <> k0) by (intros ->; contradiction).
                 specialize (Hdisj x). set_solver.
              ** set_solver.
    + rewrite IH. split.
      * intros (pre & o & post & -> & Hko & Hnd & Hdisj & Hk).
        exists (op :: pre), o, post. rewrite keys_of_cons, Hkey. auto.
      * intros (pre & o & post & Heq & Hko & Hnd & Hdisj & Hk).
        destruct pre as [| p pre]; simpl in Heq;
             [injection Heq as <- <- | injection Heq as <- ->].
        -- congruence.
        -- rewrite keys_of_cons, Hkey in Hnd, Hdisj, Hk.
           exists pre, o, post. auto.
Qed.

Lemma key_on_two_measurements_NoDup (ops : list Operation) :
  key_on_two_measurements ops <-> ~ NoDup (keys_of ops).
Proof.
  split.
  - intros (k & pre & a & mid & b & post & -> & Ha & Hb) Hnd.
    rewrite keys_of_app, keys_of_cons, Ha, keys_of_app, keys_of_cons, Hb in Hnd.
    apply NoDup_app in Hnd as (_ & _ & Hnd). apply NoDup_cons in Hnd as [Hk _].
    apply Hk. set_solver.
  - intros Hdup.
    destruct (verify_from_total ∅ ops) as [Hok | [k Hk]].
    + apply verify_from_Ok in Hok as [Hnd _]. contradiction.
    + apply verify_from_Raise in Hk as (pre & b & post & -> & Hb & _ & _ & [Hin | Hin]);
        [| set_solver].
      apply list_elem_of_omap in Hin as (a & Ha & Hka).
      apply list_elem_of_split in Ha as (p1 & p2 & ->).
      exists k, p1, a, p2, b, post. rewrite <- app_assoc. auto.
Qed.

(** *** Changing measurement keys *)

Lemma validate_operation_same_but_key (self : XmonDevice) (a b : Operation) :
  same_but_key a b ->
  XmonDevice.validate_operation self b = XmonDevice.validate_operation self a.
Proof.
  intros [-> | [key' ->]]; [reflexivity |].
  destruct a as [[d sizer] qs | qs]; [| reflexivity]. destruct d; reflexivity.
Qed.

Lemma truthy_CZPowGate_same_but_key (a b : Operation) :
  same_but_key a b ->
  truthy (op_gate_of_type b CZPowGate) = truthy (op_gate_of_type a CZPowGate).
Proof.
  intros [-> | [key' ->]]; [reflexivity |].
  destruct a as [[d sizer] qs | qs]; [| reflexivity]. destruct d; reflexivity.
Qed.

Lemma interacts_same_but_key (self : XmonDevice) (a a' b b' : Operation) :
  same_but_key a a' -> same_but_key b b' ->
  XmonDevice._check_if_exp11_operation_interacts self a' b'
  = XmonDevice._check_if_exp11_operation_interacts self a b.
Proof.
  intros Ha Hb.
  assert (Hqs : qubits_of a' = qubits_of a).
  { destruct Ha as [-> | [key' ->]]; [reflexivity |].
    destruct a as [[d sizer] qs | qs]; [| reflexivity]. destruct d; reflexivity. }
  destruct Hb as [-> | [key' ->]].
  - destruct b as [gate qs | qs]; simpl; [| reflexivity]. rewrite Hqs. reflexivity.
  - destruct b as [[d sizer] qs | qs]; [| reflexivity].
    destruct d; simpl; rewrite ?Hqs; reflexivity.
Qed.

Lemma for_each_Forall2 {A B : Type} (R : A -> B -> Prop)
    (f : A -> Result unit) (g : B -> Result unit) (l : list A) (l' : list B) :
  Forall2 R l l' -> (forall x y, R x y -> g y = f x) -> for_each g l' = for_each f l.
Proof.
  intros HR Hfg. induction HR as [| x y l l' Hxy _ IH]; simpl; [reflexivity |].
  rewrite (Hfg x y Hxy), IH. reflexivity.
Qed.

Lemma validate_moment_same_but_keys (self : XmonDevice) (m m' : Moment) :
  Forall2 same_but_key_object (operations m) (operations m') ->
  XmonDevice.validate_moment self m' = XmonDevice.validate_moment self m.
Proof.
  intros Hrel.
  assert (Hbase : Device.validate_moment (XmonDevice.validate_operation self) m'
                  = Device.validate_moment (XmonDevice.validate_operation self) m).
  { apply (for_each_Forall2 same_but_key_object); [exact Hrel |].
    intros x y [_ Hxy]. apply validate_operation_same_but_key, Hxy. }
  assert (Hcheck : XmonDevice.check_exp11_conflicts self (operations m')
                   = XmonDevice.check_exp11_conflicts self (operations m)).
  { apply (for_each_Forall2 same_but_key_object); [exact Hrel |].
    intros x y [Haddr Hxy]. rewrite (truthy_CZPowGate_same_but_key _ _ Hxy).
    destruct (truthy (op_gate_of_type (this x) CZPowGate)); [| reflexivity].
    apply (for_each_Forall2 same_but_key_object); [exact Hrel |].
    intros u v [Haddr' Huv]. rewrite Haddr, Haddr'.
    rewrite (interacts_same_but_key self _ _ _ _ Hxy Huv). reflexivity. }
  unfold XmonDevice.validate_moment. rewrite Hbase, Hcheck. reflexivity.
Qed.

Lemma verify_Ok_NoDup (ops : list Operation) :
  _verify_unique_measurement_keys ops = Ok tt <-> NoDup (keys_of ops).
Proof.
  unfold _verify_unique_measurement_keys. rewrite verify_from_Ok.
  split; [tauto |]. intros Hnd. split; [exact Hnd |]. intros x _. apply not_elem_of_empty.
Qed.

Lemma base_validate_circuit_same_but_keys (self : XmonDevice) (c c' : Circuit) :
  same_but_keys c c' ->
  Device.validate_circuit (XmonDevice.validate_moment self) c'
  = Device.validate_circuit (XmonDevice.validate_moment self) c.
Proof.
  intros [_ Hrel]. unfold Device.validate_circuit.
  eapply for_each_Forall2; [exact Hrel |].
  intros m m' Hm. apply validate_moment_same_but_keys, Hm.
Qed.

(** C7: [_verify_unique_measurement_keys] fails with a duplicate-key error if
    and only if some key is carried by two measurement operations of the
    sequence, and the key it reports is the first repeated one in scan order;
    so a circuit with two measurement operations of the same key fails
    [validate_circuit], and when everything else in the circuit validates,
    changing keys, and nothing else, so that they are pairwise distinct makes
    [validate_circuit] succeed. *)
Theorem unique_measurement_keys :
  (forall ops : list Operation,
     (fails_with (_verify_unique_measurement_keys ops) DuplicateMeasurementKeyError
      <-> key_on_two_measurements ops)
     /\ (~ key_on_two_measurements ops -> _verify_unique_measurement_keys ops = Ok tt)
     /\ (forall k, _verify_unique_measurement_keys ops
                   = Raise (ValueError (MeasurementKeyRepeated k))
                   <-> first_repeated_key ops k))
  /\ (forall (self : XmonDevice) (circuit : Circuit),
        key_on_two_measurements (all_operations circuit) ->
        exists e, XmonDevice.validate_circuit self circuit = Raise e
                  /\ (Device.validate_circuit (XmonDevice.validate_moment self) circuit = Ok tt ->
                      error_kind e = Some DuplicateMeasurementKeyError))
  /\ (forall (self : XmonDevice) (c c' : Circuit),
        Device.validate_circuit (XmonDevice.validate_moment self) c = Ok tt ->
        same_but_keys c c' ->
        NoDup (keys_of (all_operations c')) ->
        XmonDevice.validate_circuit self c' = Ok tt).
Proof.
  assert (Hfails : forall ops,
            fails_with (_verify_unique_measurement_keys ops) DuplicateMeasurementKeyError
            <-> key_on_two_measurements ops).
  { intros ops. rewrite key_on_two_measurements_NoDup, <- verify_Ok_NoDup. split.
    - intros (e & He & _) Hok. congruence.
    - intros Hnot. destruct (verify_from_total ∅ ops) as [Hok | [k Hk]]; [contradiction |].
      exists (ValueError (MeasurementKeyRepeated k)). split; [exact Hk | reflexivity]. }
  split; [| split].
  - intros ops. split; [apply Hfails |]. split.
    + rewrite key_on_two_measurements_NoDup. intros Hnd. apply verify_Ok_NoDup.
      destruct (decide (NoDup (keys_of ops))); tauto.
    + intros k. unfold _verify_unique_measurement_keys, first_repeated_key.
      rewrite verify_from_Raise. split.
      * intros (pre & op & post & Heq & Hk & Hnd & _ & [Hin | Hin]);
          [| exfalso; revert Hin; apply not_elem_of_empty].
        exists pre, op, post. auto.
      * intros (pre & op & post & Heq & Hk & Hnd & Hin).
        exists pre, op, post. repeat split; auto. intros x _. apply not_elem_of_empty.
  - intros self circuit Hdup. unfold XmonDevice.validate_circuit.
    destruct (Device.validate_circuit _ circuit) as [[] | e]; simpl.
    + apply Hfails in Hdup as (e & He & Hkind). exists e. auto.
    + exists e. split; [reflexivity | discriminate].
  - intros self c c' Hbase Hrel Hnd. unfold XmonDevice.validate_circuit.
    rewrite (base_validate_circuit_same_but_keys self c c' Hrel), Hbase. simpl.
    apply verify_Ok_NoDup, Hnd.
Qed.

Lemma unique_measurement_keys_witness :
  XmonDevice.validate_circuit square_device repeated_key_circuit
  = Raise (ValueError (MeasurementKeyRepeated "m"))
  /\ (exists e, XmonDevice.validate_circuit square_device repeated_key_circuit = Raise e
                /\ (Device.validate_circuit (XmonDevice.validate_moment square_device)
                      repeated_key_circuit = Ok tt ->
                    error_kind e = Some DuplicateMeasurementKeyError))
  /\ XmonDevice.validate_circuit square_device distinct_keys_circuit = Ok tt.
Proof.
  split; [vm_compute; reflexivity |]. split.
  - apply (proj1 (proj2 unique_measurement_keys) square_device repeated_key_circuit).
    exists "m"%string, [], (measure "m" (GQ 0 0)), [], (measure "m" (GQ 1 1)), [].
    repeat split.
  - apply (proj2 (proj2 unique_measurement_keys) square_device
             repeated_key_circuit distinct_keys_circuit).
    + vm_compute. reflexivity.
    + split; [reflexivity |]. simpl.
      constructor; [| constructor]. simpl.
      constructor; [split; [reflexivity | left; reflexivity] |].
      constructor; [split; [reflexivity | right; exists "n"%string; reflexivity] |].
      constructor.
    + refine (bool_decide_unpack _ _). vm_compute. exact I.
Defined.

(** ** The acquaintance device *)

(** C9: on the acquaintance device, [duration_of],
    [validate_scheduled_operation] and [validate_schedule] fail with a
    not-supported error on every input. *)
Theorem acquaintance_device_timing_not_supported
    (op : Operation) (schedule : Schedule) (scheduled_operation : ScheduledOperation) :
  fails_with (AcquaintanceDevice.duration_of op) NotSupportedError
  /\ fails_with (AcquaintanceDevice.validate_scheduled_operation schedule scheduled_operation)
       NotSupportedError
  /\ fails_with (AcquaintanceDevice.validate_schedule schedule) NotSupportedError
  /\ AcquaintanceDevice.duration_of op = Raise NotImplementedError
  /\ AcquaintanceDevice.validate_scheduled_operation schedule scheduled_operation
     = Raise NotImplementedError
  /\ AcquaintanceDevice.validate_schedule schedule = Raise NotImplementedError.
Proof.
  repeat split; exists NotImplementedError; split; reflexivity.
Qed.

Lemma acquaintance_validate_operation_total (op : Operation) :
  AcquaintanceDevice.validate_operation op = Ok tt
  \/ AcquaintanceDevice.validate_operation op = Raise (ValueError NotGateOperationOfGateTypes).
Proof.
  unfold AcquaintanceDevice.validate_operation.
  destruct (negb _); auto.
Qed.

(** C10: the acquaintance device's [validate_operation] looks at the shape of
    the operation and at the class of its gate only: it succeeds on every gate
    operation whose gate is an acquaintance-opportunity or a permutation gate,
    whatever the operand qubits; its result does not depend on the operands;
    and it never fails with a qubit-not-on-device or a non-local-interaction
    error. *)
Theorem acquaintance_validate_operation_gate_only :
  (forall gate qs,
     kind_of gate = acquaintance_opportunity \/ kind_of gate = permutation ->
     AcquaintanceDevice.validate_operation (GateOperation gate qs) = Ok tt)
  /\ (forall gate qs qs',
        AcquaintanceDevice.validate_operation (GateOperation gate qs)
        = AcquaintanceDevice.validate_operation (GateOperation gate qs'))
  /\ (forall op,
        ~ fails_with (AcquaintanceDevice.validate_operation op) QubitNotOnDeviceError
        /\ ~ fails_with (AcquaintanceDevice.validate_operation op) NonLocalInteractionError).
Proof.
  split; [| split].
  - intros [d sizer] qs [Hkind | Hkind]; destruct d; try discriminate; reflexivity.
  - reflexivity.
  - intros op.
    destruct (acquaintance_validate_operation_total op) as [-> | ->];
      split; intros (e & [= <-] & Hkind); discriminate.
Qed.

Lemma acquaintance_validate_operation_gate_only_witness :
  AcquaintanceDevice.validate_operation
    (GateOperation acquaint [NamedQubit "a"; Grid (GQ 7 (-3)); NamedQubit "a"]) = Ok tt.
Proof.
  apply (proj1 acquaintance_validate_operation_gate_only).
  left. reflexivity.
Defined.

(** ** Instances of the theorems above *)

Lemma validate_operation_cases_witness :
  XmonDevice.validate_operation square_device
    (GateOperation (plain CZPow) [Grid (GQ 0 0); Grid (GQ 1 1)])
  = Raise (ValueError NonLocalInteraction)
  /\ XmonDevice.validate_operation square_device
       (GateOperation (plain CZPow) [Grid (GQ 0 0); Grid (GQ 0 1)]) = Ok tt
  /\ fails_with (XmonDevice.validate_operation square_device
                   (GateOperation (plain XPow) [Grid (GQ 2 0)])) QubitNotOnDeviceError
  /\ XmonDevice.validate_operation square_device
       (GateOperation (plain Permutation) [Grid (GQ 0 0)])
     = Raise (ValueError UnsupportedGateType).
Proof.
  assert (Hon : forall q, In q [Grid (GQ 0 0); Grid (GQ 1 1); Grid (GQ 0 1)] ->
                          on_device square_device q).
  { intros q Hq. apply validate_qubit_Ok.
    destruct Hq as [<- | [<- | [<- | []]]]; vm_compute; reflexivity. }
  split; [| split; [| split]].
  - apply (validate_operation_cases square_device (plain CZPow) [Grid (GQ 0 0); Grid (GQ 1 1)]).
    + reflexivity.
    + intros q Hq. apply Hon. simpl in *. tauto.
    + split; [discriminate |]. exists (GQ 0 0), (GQ 1 1). split; [reflexivity |].
      unfold grid_adjacent. simpl. lia.
  - apply (validate_operation_cases square_device (plain CZPow) [Grid (GQ 0 0); Grid (GQ 0 1)]).
    + reflexivity.
    + intros q Hq. apply Hon. simpl in *. tauto.
    + intros (_ & p & q & [= <- <-] & Hfar). apply Hfar.
      unfold grid_adjacent. simpl. lia.
  - apply (validate_operation_cases square_device (plain XPow) [Grid (GQ 2 0)]).
    + reflexivity.
    + exists (Grid (GQ 2 0)). split; [simpl; auto |].
      intros Hq. apply validate_qubit_Ok in Hq. vm_compute in Hq. discriminate Hq.
  - apply (validate_operation_cases square_device (plain Permutation) [Grid (GQ 0 0)]).
    reflexivity.
Defined.

Lemma interacts_rule_witness :
  XmonDevice._check_if_exp11_operation_interacts square_device
    (GateOperation (plain CZPow) [Grid (GQ 0 0); Grid (GQ 0 1)])
    (GateOperation (plain XPow) [Grid (GQ 1 0)]) = Ok false
  /\ exists b : bool,
       XmonDevice._check_if_exp11_operation_interacts square_device
         (GateOperation (plain CZPow) (map Grid [GQ 0 0; GQ 0 1]))
         (GateOperation (plain CZPow) (map Grid [GQ 1 0; GQ 1 1])) = Ok b
       /\ (b = true <-> some_adjacent [GQ 0 0; GQ 0 1] [GQ 1 0; GQ 1 1]).
Proof.
  split.
  - apply (proj1 (interacts_rule square_device (plain CZPow) (plain XPow))).
    reflexivity.
  - apply (proj2 (interacts_rule square_device (plain CZPow) (plain CZPow))).
    reflexivity.
Defined.

Lemma acquaintance_size_cases_witness :
  get_acquaintance_size
    (OperationObject (GateOperation acquaint [NamedQubit "a"; NamedQubit "b"; NamedQubit "c"]))
  = Ok 3
  /\ get_acquaintance_size (OperationObject (GateOperation sized_network [])) = Ok 3
  /\ get_acquaintance_size (OperationObject (GateOperation hooked_network [NamedQubit "a"]))
     = Ok 2
  /\ fails_with (get_acquaintance_size (CircuitObject repeated_key_circuit)) TypeMismatchError
  /\ (exists m sizes,
        get_acquaintance_size (CircuitObject strategy_circuit) = Ok m
        /\ Forall2 (fun op s => get_acquaintance_size (OperationObject op) = Ok s)
             (all_operations strategy_circuit) sizes
        /\ max_of_or_zero sizes m).
Proof.
  destruct acquaintance_size_cases as (Hopp & _ & _ & Hfits & Hfalls & Htype & Hmax).
  split; [| split; [| split; [| split]]]; [| | | | apply Hmax; reflexivity].
  - apply (Hopp acquaint). reflexivity.
  - apply (Hfits sized_network [] [2; 1; 2] 3); [reflexivity |]. simpl. auto.
  - apply (Hfalls hooked_network [NamedQubit "a"] [2; 2] 5); [reflexivity |].
    simpl. lia.
  - apply (Htype repeated_key_circuit). reflexivity.
Defined.

Lemma neighbors_of_cardinal_witness :
  In (GQ 0 1) (XmonDevice.neighbors_of square_device (GQ 0 0))
  /\ ~ In (GQ 1 1) (XmonDevice.neighbors_of square_device (GQ 0 0)).
Proof.
  destruct (neighbors_of_cardinal square_device (GQ 0 0)) as (Hchar & _ & Hdiag & _).
  split.
  - apply Hchar. split; [| unfold grid_adjacent; simpl; lia].
    assert (Hon : on_device square_device (Grid (GQ 0 1)))
      by (apply validate_qubit_Ok; vm_compute; reflexivity).
    destruct Hon as (g & [= <-] & Hg). exact Hg.
  - apply Hdiag. unfold diagonal. simpl. lia.
Defined.

(** * Further properties *)

(** ** The grid: neighbours, [at], [row], [col], the constructor *)

Lemma neighbors_of_elem (self : XmonDevice) (p q : GridQubit) :
  In q (XmonDevice.neighbors_of self p) <-> q ∈ qubits self /\ grid_adjacent p q.
Proof.
  unfold XmonDevice.neighbors_of.
  rewrite <- list_elem_of_In, list_elem_of_filter, list_elem_of_In.
  unfold grid_adjacent, GQ. simpl. split.
  - intros [Hq [H | [H | [H | [H | []]]]]]; subst q; simpl; split; auto; lia.
  - intros [Hq H]. split; [exact Hq |].
    destruct H as [[Hr Hc] | [[Hr Hc] | [[Hr Hc] | [Hr Hc]]]];
      [left | right; left | right; right; left | right; right; right; left];
      symmetry; apply GridQubit_eq; simpl; lia.
Qed.

(** X1: between qubits of the device, being a neighbour is symmetric, and
    [neighbors_of] lists no qubit twice. *)
Theorem neighbors_of_symmetric (self : XmonDevice) (p q : GridQubit) :
  (p ∈ qubits self -> In q (XmonDevice.neighbors_of self p) ->
   In p (XmonDevice.neighbors_of self q))
  /\ NoDup (XmonDevice.neighbors_of self p).
Proof.
  split.
  - intros Hp Hq. apply neighbors_of_elem in Hq as [_ Hadj].
    apply neighbors_of_elem. split; [exact Hp | apply grid_adjacent_sym, Hadj].
  - unfold XmonDevice.neighbors_of. apply NoDup_filter.
    repeat (apply NoDup_cons; split;
            [rewrite ?elem_of_cons, elem_of_nil; unfold GQ;
             intros H; repeat (destruct H as [H | H]; [injection H; lia |]); exact H |]).
    apply NoDup_nil_2.
Qed.

Lemma neighbors_of_symmetric_witness :
  In (GQ 0 1) (XmonDevice.neighbors_of square_device (GQ 0 0)).
Proof.
  apply (proj1 (neighbors_of_symmetric square_device (GQ 0 1) (GQ 0 0))).
  - refine (bool_decide_unpack _ _). vm_compute. exact I.
  - vm_compute. auto.
Defined.

(** X2: a two-operand operation of an allowed kind other than measurement is
    valid exactly when its first operand is on the device and its second is
    one of the neighbours [neighbors_of] gives for the first. *)
Theorem two_qubit_operation_valid_iff_neighbors
    (self : XmonDevice) (gate : Gate) (p q : GridQubit) :
  allowed_kind (kind_of gate) = true ->
  kind_of gate <> measurement ->
  (XmonDevice.validate_operation self (GateOperation gate [Grid p; Grid q]) = Ok tt
   <-> p ∈ qubits self /\ In q (XmonDevice.neighbors_of self p)).
Proof.
  intros Hallowed Hkind. rewrite neighbors_of_elem, <- grid_adjacentb_spec.
  unfold XmonDevice.validate_operation.
  rewrite validate_gate_allowed, Hallowed, isinstance_MeasurementGate.
  rewrite bool_decide_eq_false_2 by exact Hkind. simpl.
  destruct (decide (p ∈ qubits self)) as [Hp | Hp]; simpl; [| split; [discriminate | tauto]].
  destruct (decide (q ∈ qubits self)) as [Hq | Hq]; simpl; [| split; [discriminate | tauto]].
  destruct (grid_adjacentb p q); simpl; split; try tauto; try discriminate.
  intros (_ & _ & [=]).
Qed.

Lemma two_qubit_operation_valid_iff_neighbors_witness :
  XmonDevice.validate_operation square_device
    (GateOperation (plain CZPow) [Grid (GQ 0 0); Grid (GQ 1 0)]) = Ok tt.
Proof.
  apply (two_qubit_operation_valid_iff_neighbors square_device (plain CZPow) (GQ 0 0) (GQ 1 0)).
  - reflexivity.
  - discriminate.
  - split; [refine (bool_decide_unpack _ _); vm_compute; exact I | vm_compute; auto].
Defined.

(** X3: [duration_of] returns a duration for a gate operation exactly when
    [validate_gate] accepts its gate; so every operation that
    [validate_operation] accepts has a duration. *)
Theorem duration_of_defined_iff_gate_allowed (self : XmonDevice) :
  (forall gate qs,
     (exists d, XmonDevice.duration_of self (GateOperation gate qs) = Ok d)
     <-> XmonDevice.validate_gate self gate = Ok tt)
  /\ (forall op, XmonDevice.validate_operation self op = Ok tt ->
                 exists d, XmonDevice.duration_of self op = Ok d).
Proof.
  assert (Hgate : forall gate qs,
            (exists d, XmonDevice.duration_of self (GateOperation gate qs) = Ok d)
            <-> XmonDevice.validate_gate self gate = Ok tt).
  { intros [d sizer] qs.
    destruct d; cbv; split; intros H; try discriminate; eauto;
      destruct H as [? H]; discriminate. }
  split; [exact Hgate |].
  intros op Hvalid.
  destruct (validate_operation_Ok_inv self op Hvalid) as (gate & gs & -> & Hallowed & _).
  apply Hgate. rewrite validate_gate_allowed, Hallowed. reflexivity.
Qed.

Lemma duration_of_defined_iff_gate_allowed_witness :
  exists d, XmonDevice.duration_of square_device
              (GateOperation (plain CZPow) [Grid (GQ 0 0); Grid (GQ 1 0)]) = Ok d.
Proof.
  apply (proj2 (duration_of_defined_iff_gate_allowed square_device)).
  vm_compute. reflexivity.
Defined.

#[global] Instance GridQubit_le_trans : Transitive GridQubit_le.
Proof. intros x y z. unfold GridQubit_le. lia. Qed.

#[global] Instance GridQubit_le_total : Total GridQubit_le.
Proof. intros x y. unfold GridQubit_le. lia. Qed.

Lemma elem_of_row (self : XmonDevice) (r : Z) (q : GridQubit) :
  q ∈ XmonDeviceGrid.row self r <-> q ∈ qubits self /\ row q = r.
Proof.
  unfold XmonDeviceGrid.row. rewrite merge_sort_Permutation.
  rewrite list_elem_of_filter, elem_of_elements. unfold in_row. tauto.
Qed.

Lemma elem_of_col (self : XmonDevice) (c : Z) (q : GridQubit) :
  q ∈ XmonDeviceGrid.col self c <-> q ∈ qubits self /\ col q = c.
Proof.
  unfold XmonDeviceGrid.col. rewrite merge_sort_Permutation.
  rewrite list_elem_of_filter, elem_of_elements. unfold in_col. tauto.
Qed.

(** A sorted list of distinct positions is strictly ascending for any order
    that [GridQubit_le] induces on distinct members of the list. *)
Lemma sorted_distinct_strict (lt : relation GridQubit) (P : GridQubit -> Prop)
    (l : list GridQubit) :
  (forall x y, P x -> P y -> GridQubit_le x y -> x <> y -> lt x y) ->
  StronglySorted GridQubit_le l -> NoDup l -> Forall P l -> StronglySorted lt l.
Proof.
  intros Hlt Hsorted. induction Hsorted as [| x l Hl IH Hx]; intros Hnd HP.
  - constructor.
  - apply NoDup_cons in Hnd as [Hfresh Hnd]. apply Forall_cons in HP as [HPx HP].
    constructor; [apply IH; assumption |].
    rewrite Forall_forall in Hx, HP. apply Forall_forall. intros y Hy.
    apply Hlt; auto. intros ->. contradiction.
Qed.

Lemma at_Some (self : XmonDevice) (r c : Z) (q : GridQubit) :
  XmonDeviceGrid.at_ self r c = Some q <-> q ∈ qubits self /\ row q = r /\ col q = c.
Proof.
  unfold XmonDeviceGrid.at_. simpl.
  destruct (decide (GQ r c ∈ qubits self)) as [Hin | Hout]; split.
  - intros [= <-]. auto.
  - intros (Hq & Hr & Hc). f_equal. apply GridQubit_eq; simpl; congruence.
  - discriminate.
  - intros (Hq & Hr & Hc). exfalso. apply Hout.
    replace (GQ r c) with q; [exact Hq |]. apply GridQubit_eq; simpl; congruence.
Qed.

(** X4: [at(row, col)] returns a qubit exactly when the device has a qubit at
    that row and column, and then returns that qubit; it is what [row] and
    [col] have in common; and [neighbors_of] is [at] asked at the four
    cardinal positions, the absent ones dropped. *)
Theorem at_finds_the_qubit (self : XmonDevice) (r c : Z) :
  (forall q, XmonDeviceGrid.at_ self r c = Some q
             <-> q ∈ qubits self /\ row q = r /\ col q = c)
  /\ (XmonDeviceGrid.at_ self r c = None <-> GQ r c ∉ qubits self)
  /\ (forall q, XmonDeviceGrid.at_ self r c = Some q
                <-> q ∈ XmonDeviceGrid.row self r /\ q ∈ XmonDeviceGrid.col self c)
  /\ XmonDevice.neighbors_of self (GQ r c)
     = omap (fun rc => XmonDeviceGrid.at_ self (fst rc) (snd rc))
         [(r + 1, c); (r - 1, c); (r, c + 1); (r, c - 1)].
Proof.
  split; [intros q; apply at_Some |]. split; [| split].
  - unfold XmonDeviceGrid.at_. simpl.
    destruct (decide (GQ r c ∈ qubits self)); split; try tauto; discriminate.
  - intros q. rewrite at_Some, elem_of_row, elem_of_col. tauto.
  - unfold XmonDevice.neighbors_of, XmonDeviceGrid.at_. simpl.
    repeat match goal with
           | |- context [decide (?q ∈ qubits self)] =>
               destruct (decide (q ∈ qubits self))
           end; simpl;
    repeat (first [rewrite filter_cons_True by assumption
                  | rewrite filter_cons_False by assumption]);
    reflexivity.
Qed.

(** X5: [row(r)] holds exactly the qubits of the device in row [r], each
    once, by strictly ascending column. *)
Theorem row_members_ascending (self : XmonDevice) (r : Z) :
  (forall q, q ∈ XmonDeviceGrid.row self r <-> q ∈ qubits self /\ row q = r)
  /\ StronglySorted (fun a b => col a < col b) (XmonDeviceGrid.row self r)
  /\ NoDup (XmonDeviceGrid.row self r).
Proof.
  assert (Hnd : NoDup (XmonDeviceGrid.row self r)).
  { unfold XmonDeviceGrid.row. rewrite merge_sort_Permutation.
    apply NoDup_filter, NoDup_elements. }
  split; [intros q; apply elem_of_row |]. split; [| exact Hnd].
  apply (sorted_distinct_strict _ (in_row r)).
  - unfold in_row, GridQubit_le. intros x y Hx Hy Hle Hne.
    destruct (Z.eq_dec (col x) (col y)) as [Hc | Hc]; [| lia].
    exfalso. apply Hne, GridQubit_eq; congruence.
  - apply StronglySorted_merge_sort; apply _.
  - exact Hnd.
  - apply Forall_forall. intros q Hq. apply elem_of_row in Hq. apply Hq.
Qed.

(** X6: [col(c)] holds exactly the qubits of the device in column [c], each
    once, by strictly ascending row. *)
Theorem col_members_ascending (self : XmonDevice) (c : Z) :
  (forall q, q ∈ XmonDeviceGrid.col self c <-> q ∈ qubits self /\ col q = c)
  /\ StronglySorted (fun a b => row a < row b) (XmonDeviceGrid.col self c)
  /\ NoDup (XmonDeviceGrid.col self c).
Proof.
  assert (Hnd : NoDup (XmonDeviceGrid.col self c)).
  { unfold XmonDeviceGrid.col. rewrite merge_sort_Permutation.
    apply NoDup_filter, NoDup_elements. }
  split; [intros q; apply elem_of_col |]. split; [| exact Hnd].
  apply (sorted_distinct_strict _ (in_col c)).
  - unfold in_col, GridQubit_le. intros x y Hx Hy Hle Hne.
    destruct (Z.eq_dec (row x) (row y)) as [Hr | Hr]; [| lia].
    exfalso. apply Hne, GridQubit_eq; congruence.
  - apply StronglySorted_merge_sort; apply _.
  - exact Hnd.
  - apply Forall_forall. intros q Hq. apply elem_of_col in Hq. apply Hq.
Qed.

Example row_of_square :
  XmonDeviceGrid.row square_device 1 = [GQ 1 0; GQ 1 1]
  /\ XmonDeviceGrid.col square_device 0 = [GQ 0 0; GQ 1 0]
  /\ XmonDeviceGrid.row square_device 2 = [].
Proof. vm_compute. auto. Qed.

(** X7: the constructor keeps of its qubits only which ones they are: a qubit
    is on the device exactly when it was given, and two devices built with the
    same durations are equal by value exactly when they were given the same
    qubits, in whatever order and however many times each. *)
Theorem init_value_equality (DurationLike : Type) (create : DurationLike -> Duration)
    (m w z : DurationLike) (qs qs' : list GridQubit) :
  (forall q, q ∈ qubits (XmonDeviceGrid.__init__ DurationLike create m w z qs) <-> q ∈ qs)
  /\ (XmonDeviceGrid._value_equality_values_ (XmonDeviceGrid.__init__ DurationLike create m w z qs)
      = XmonDeviceGrid._value_equality_values_ (XmonDeviceGrid.__init__ DurationLike create m w z qs')
      <-> forall q, q ∈ qs <-> q ∈ qs').
Proof.
  split.
  - intros q. simpl. apply elem_of_list_to_set.
  - unfold XmonDeviceGrid._value_equality_values_. simpl. split.
    + intros [= Heq] q. rewrite <- !(elem_of_list_to_set (C := gset GridQubit)), Heq.
      reflexivity.
    + intros Hsame. f_equal. apply set_eq. intros q.
      rewrite !elem_of_list_to_set. apply Hsame.
Qed.

(** ** Crosstalk *)

Lemma some_adjacentb_sym (qsA qsB : list GridQubit) :
  some_adjacentb qsA qsB = some_adjacentb qsB qsA.
Proof.
  apply eq_true_iff_eq. rewrite !some_adjacentb_spec. unfold some_adjacent.
  split; intros (q & p & Hq & Hp & Hadj); exists p, q; auto using grid_adjacent_sym.
Qed.

Lemma any_of_row_any (q : GridQubit) (qsB : list Qid) :
  any_of (fun qp => call_is_adjacent (fst qp) (snd qp)) (map (fun p => (Grid q, p)) qsB)
  = Ok (existsb (is_adjacent q) qsB).
Proof.
  induction qsB as [| p qsB IH]; simpl; [reflexivity |].
  destruct (is_adjacent q p); simpl; [reflexivity | exact IH].
Qed.

Lemma any_of_pairs_any (gsA : list GridQubit) (qsB : list Qid) :
  any_of (fun qp => call_is_adjacent (fst qp) (snd qp))
    (flat_map (fun q => map (fun p => (q, p)) qsB) (map Grid gsA))
  = Ok (existsb (fun q => existsb (is_adjacent q) qsB) gsA).
Proof.
  induction gsA as [| q gsA IH]; simpl; [reflexivity |].
  rewrite any_of_app, any_of_row_any, IH. simpl.
  destruct (existsb (is_adjacent q) qsB); reflexivity.
Qed.

(** An operation on grid positions never makes [interacts] raise against an
    operation that carries a gate. *)
Lemma interacts_gate_operation (self : XmonDevice) (opA : Operation) (gsA : list GridQubit)
    (gateB : Gate) (qsB : list Qid) :
  qubits_of opA = map Grid gsA ->
  exists b, XmonDevice._check_if_exp11_operation_interacts self opA (GateOperation gateB qsB)
            = Ok b.
Proof.
  intros HA. unfold XmonDevice._check_if_exp11_operation_interacts. rewrite HA.
  destruct (isinstance_any gateB _); [eauto |].
  rewrite any_of_pairs_any. eauto.
Qed.

(** X8: between two operations on grid positions whose gates are both of a
    conflicting kind, or both not, [interacts] does not depend on which of the
    two comes first; in particular between two two-qubit interactions. *)
Theorem interacts_symmetric (self : XmonDevice) (gateA gateB : Gate)
    (gsA gsB : list GridQubit) :
  non_interacting (kind_of gateA) = non_interacting (kind_of gateB) ->
  XmonDevice._check_if_exp11_operation_interacts self
    (GateOperation gateA (map Grid gsA)) (GateOperation gateB (map Grid gsB))
  = XmonDevice._check_if_exp11_operation_interacts self
      (GateOperation gateB (map Grid gsB)) (GateOperation gateA (map Grid gsA)).
Proof.
  intros Hsame.
  rewrite (interacts_grid self _ gateB gsA gsB) by reflexivity.
  rewrite (interacts_grid self _ gateA gsB gsA) by reflexivity.
  rewrite Hsame, some_adjacentb_sym. reflexivity.
Qed.

Lemma interacts_symmetric_witness :
  XmonDevice._check_if_exp11_operation_interacts square_device
    (GateOperation (plain CZPow) (map Grid [GQ 0 0; GQ 0 1]))
    (GateOperation (plain CZPow) (map Grid [GQ 1 0; GQ 1 1]))
  = XmonDevice._check_if_exp11_operation_interacts square_device
      (GateOperation (plain CZPow) (map Grid [GQ 1 0; GQ 1 1]))
      (GateOperation (plain CZPow) (map Grid [GQ 0 0; GQ 0 1])).
Proof.
  apply (interacts_symmetric square_device (plain CZPow) (plain CZPow)).
  reflexivity.
Defined.

(** Without that precondition the order matters: only the gate of the second
    operation is looked at. *)
Example interacts_not_symmetric :
  XmonDevice._check_if_exp11_operation_interacts square_device
    (GateOperation (plain CZPow) [Grid (GQ 0 0); Grid (GQ 0 1)])
    (GateOperation (plain XPow) [Grid (GQ 1 0)]) = Ok false
  /\ XmonDevice._check_if_exp11_operation_interacts square_device
       (GateOperation (plain XPow) [Grid (GQ 1 0)])
       (GateOperation (plain CZPow) [Grid (GQ 0 0); Grid (GQ 0 1)]) = Ok true.
Proof. vm_compute. auto. Qed.

(** X9: for an operation on grid positions and others that all carry a gate,
    [_check_if_exp11_operation_interacts_with_any] returns, without raising,
    whether the operation interacts with at least one of the others; it is
    false when there are none. *)
Theorem interacts_with_any_exists (self : XmonDevice) (op : Operation)
    (gs : list GridQubit) (others : list Operation) :
  qubits_of op = map Grid gs ->
  (forall o, In o others -> exists gate qs, o = GateOperation gate qs) ->
  exists b : bool,
    XmonDevice._check_if_exp11_operation_interacts_with_any self op others = Ok b
    /\ (b = true <->
        exists o, In o others
                  /\ XmonDevice._check_if_exp11_operation_interacts self op o = Ok true)
    /\ (others = [] -> b = false).
Proof.
  intros Hgs Hgates.
  destruct (any_of_total (XmonDevice._check_if_exp11_operation_interacts self op) others)
    as (b & Hb & Hiff).
  { intros o Ho. destruct (Hgates o Ho) as (gate & qs & ->).
    apply (interacts_gate_operation self op gs), Hgs. }
  exists b. split; [exact Hb |]. split; [exact Hiff |].
  intros ->. simpl in Hb. congruence.
Qed.

Lemma interacts_with_any_exists_witness :
  exists b : bool,
    XmonDevice._check_if_exp11_operation_interacts_with_any square_device
      (GateOperation (plain CZPow) [Grid (GQ 1 0); Grid (GQ 1 1)])
      (map this (operations one_interaction)) = Ok b
    /\ (b = true <->
        exists o, In o (map this (operations one_interaction))
                  /\ XmonDevice._check_if_exp11_operation_interacts square_device
                       (GateOperation (plain CZPow) [Grid (GQ 1 0); Grid (GQ 1 1)]) o
                     = Ok true)
    /\ (map this (operations one_interaction) = [] -> b = false).
Proof.
  apply (interacts_with_any_exists square_device _ [GQ 1 0; GQ 1 1]).
  - reflexivity.
  - intros o [<- | []]. eauto.
Defined.

(** ** Moments *)

Lemma validate_operation_error_kinds (self : XmonDevice) (op : Operation) (e : Exception) :
  XmonDevice.validate_operation self op = Raise e ->
  error_kind e = Some UnsupportedOperationError
  \/ error_kind e = Some UnsupportedGateError
  \/ error_kind e = Some QubitNotOnDeviceError
  \/ error_kind e = Some NonLocalInteractionError.
Proof.
  destruct op as [gate qs | qs]; simpl; [| intros [= <-]; auto].
  rewrite validate_gate_allowed.
  destruct (allowed_kind (kind_of gate)); simpl; [| intros [= <-]; auto].
  destruct (for_each (XmonDevice.validate_qubit self) qs) as [[] | e'] eqn:Hloop; simpl.
  - pose proof (proj1 (validate_qubits_Ok self qs) Hloop) as Hon.
    destruct qs as [| p [| q [| c qs]]]; try discriminate.
    destruct (negb (isinstance gate MeasurementGate)); [| discriminate].
    destruct (Hon p) as (g & -> & _); [simpl; auto |]. simpl.
    destruct (negb (is_adjacent g q)); [| discriminate]. intros [= <-]. auto.
  - intros [= <-]. apply for_each_Raise in Hloop as (q & _ & Hq).
    apply validate_qubit_Raise in Hq. auto.
Qed.

Lemma validate_moment_Ok_char (self : XmonDevice) (moment : Moment) :
  XmonDevice.validate_moment self moment = Ok tt <->
  (forall o, In o (operations moment) -> XmonDevice.validate_operation self (this o) = Ok tt)
  /\ ~ conflict self (operations moment).
Proof.
  split.
  - intros Hok. pose proof (validate_moment_Ok_valid self moment Hok) as Hvalid.
    split; [exact Hvalid |].
    rewrite (validate_moment_valid self moment Hvalid) in Hok.
    apply (check_exp11_conflicts_valid self _ Hvalid), Hok.
  - intros [Hvalid Hfree]. rewrite (validate_moment_valid self moment Hvalid).
    apply (check_exp11_conflicts_valid self _ Hvalid), Hfree.
Qed.

(** X10: [validate_moment] succeeds exactly when every operation of the moment
    is valid and no two of them conflict; it fails with an
    adjacent-interaction error exactly when every operation is valid and two
    of them conflict; and when some operation is invalid it fails with the
    error [validate_operation] gives for an operation of the moment, whether
    or not operations conflict. *)
Theorem validate_moment_outcomes (self : XmonDevice) (moment : Moment) :
  (XmonDevice.validate_moment self moment = Ok tt <->
   (forall o, In o (operations moment) ->
              XmonDevice.validate_operation self (this o) = Ok tt)
   /\ ~ conflict self (operations moment))
  /\ (fails_with (XmonDevice.validate_moment self moment) AdjacentInteractionError <->
      (forall o, In o (operations moment) ->
                 XmonDevice.validate_operation self (this o) = Ok tt)
      /\ conflict self (operations moment))
  /\ (forall o, In o (operations moment) ->
                XmonDevice.validate_operation self (this o) <> Ok tt ->
                exists o' e, In o' (operations moment)
                             /\ XmonDevice.validate_operation self (this o') = Raise e
                             /\ XmonDevice.validate_moment self moment = Raise e).
Proof.
  split; [apply validate_moment_Ok_char |].
  assert (Hbase : forall e,
            Device.validate_moment (XmonDevice.validate_operation self) moment = Raise e ->
            XmonDevice.validate_moment self moment = Raise e
            /\ exists o', In o' (operations moment)
                          /\ XmonDevice.validate_operation self (this o') = Raise e).
  { intros e He. split.
    - unfold XmonDevice.validate_moment. rewrite He. reflexivity.
    - apply for_each_Raise in He as (o' & Ho' & He). eauto. }
  split.
  - split.
    + intros (e & He & Hkind).
      destruct (Device.validate_moment (XmonDevice.validate_operation self) moment)
        as [[] | e'] eqn:Hb.
      * pose proof (proj1 (base_validate_moment_Ok self moment) Hb) as Hvalid.
        split; [exact Hvalid |].
        rewrite (validate_moment_valid self moment Hvalid) in He.
        apply (check_exp11_conflicts_valid self _ Hvalid).
        rewrite He. f_equal.
        destruct e as [[] | | |]; try discriminate. reflexivity.
      * destruct (Hbase e' eq_refl) as [Hr (o' & _ & Ho')].
        rewrite Hr in He. injection He as <-.
        apply validate_operation_error_kinds in Ho'.
        destruct Ho' as [H | [H | [H | H]]]; congruence.
    + intros [Hvalid Hconflict]. exists (ValueError AdjacentExp11Operations).
      split; [| reflexivity]. rewrite (validate_moment_valid self moment Hvalid).
      apply (check_exp11_conflicts_valid self _ Hvalid), Hconflict.
  - intros o Ho Hbad.
    destruct (Device.validate_moment (XmonDevice.validate_operation self) moment)
      as [[] | e] eqn:Hb.
    + exfalso. apply Hbad, (proj1 (base_validate_moment_Ok self moment) Hb), Ho.
    + destruct (Hbase e eq_refl) as [Hr (o' & Ho' & He)]. eauto.
Qed.

Lemma validate_moment_outcomes_witness :
  exists o' e, In o' (operations {| operations := [
                   {| addr := 0; this := GateOperation (plain CZPow) [Grid (GQ 0 0); Grid (GQ 5 5)] |} ] |})
    /\ XmonDevice.validate_operation square_device (this o') = Raise e
    /\ XmonDevice.validate_moment square_device {| operations := [
         {| addr := 0; this := GateOperation (plain CZPow) [Grid (GQ 0 0); Grid (GQ 5 5)] |} ] |}
       = Raise e.
Proof.
  eapply (proj2 (proj2 (validate_moment_outcomes square_device _))).
  - simpl. left. reflexivity.
  - vm_compute. discriminate.
Defined.

(** X11: whether [validate_moment] succeeds does not depend on the order of
    the operations in the moment. *)
Theorem validate_moment_order_insensitive (self : XmonDevice) (m m' : Moment) :
  operations m ≡ₚ operations m' ->
  (XmonDevice.validate_moment self m = Ok tt <-> XmonDevice.validate_moment self m' = Ok tt).
Proof.
  intros Hperm. rewrite !validate_moment_Ok_char.
  assert (Hin : forall o, In o (operations m) <-> In o (operations m')).
  { intros o. split; apply Permutation_in; [exact Hperm | symmetry; exact Hperm]. }
  unfold conflict. split; intros [Hvalid Hfree]; split.
  - intros o Ho. apply Hvalid, Hin, Ho.
  - intros (a & b & Ha & Hb & H). apply Hfree. exists a, b.
    rewrite !Hin. auto.
  - intros o Ho. apply Hvalid, Hin, Ho.
  - intros (a & b & Ha & Hb & H). apply Hfree. exists a, b.
    rewrite <- !Hin. auto.
Qed.

Lemma validate_moment_order_insensitive_witness :
  XmonDevice.validate_moment square_device
    {| operations := rev (operations four_rotations) |} = Ok tt.
Proof.
  apply (validate_moment_order_insensitive square_device four_rotations
           {| operations := rev (operations four_rotations) |}).
  - apply Permutation_rev.
  - vm_compute. reflexivity.
Defined.

(** X12: on a moment that holds no two-qubit interaction, [validate_moment]
    is the validation of the operations one by one, errors included. *)
Theorem validate_moment_without_interaction (self : XmonDevice) (moment : Moment) :
  (forall o, In o (operations moment) -> op_kind (this o) <> two_qubit_interaction) ->
  XmonDevice.validate_moment self moment
  = Device.validate_moment (XmonDevice.validate_operation self) moment.
Proof.
  intros Hnone. unfold XmonDevice.validate_moment.
  destruct (Device.validate_moment _ moment) as [[] | e]; [| reflexivity]. simpl.
  unfold XmonDevice.check_exp11_conflicts. apply for_each_Ok, List.Forall_forall.
  intros o Ho. rewrite truthy_CZPowGate, bool_decide_eq_false_2; [reflexivity |].
  apply Hnone, Ho.
Qed.

Lemma validate_moment_without_interaction_witness :
  XmonDevice.validate_moment square_device four_rotations
  = Device.validate_moment (XmonDevice.validate_operation square_device) four_rotations.
Proof.
  apply validate_moment_without_interaction.
  intros o Ho H. simpl in Ho.
  repeat (destruct Ho as [<- | Ho]; [vm_compute in H; discriminate H |]).
  exact Ho.
Defined.

(** ** Adding an operation to a moment *)

Lemma allowed_not_interaction (k : GateKind) :
  allowed_kind k = true -> k <> two_qubit_interaction -> non_interacting k = true.
Proof. destruct k; simpl; congruence. Qed.

(** X13: for a valid moment, a valid operation that the base class's check
    lets in, and an operation object that is not yet in the moment,
    [can_add_operation_into_moment] returns true exactly when the moment with
    the operation added still passes [validate_moment]. *)
Theorem can_add_iff_extended_moment_valid
    (super : Operation -> Moment -> bool) (self : XmonDevice)
    (op : Operation) (moment : Moment) (a : nat) :
  XmonDevice.validate_moment self moment = Ok tt ->
  XmonDevice.validate_operation self op = Ok tt ->
  super op moment = true ->
  (forall o, In o (operations moment) -> addr o <> a) ->
  (XmonDevice.can_add_operation_into_moment super self op moment = Ok true
   <-> XmonDevice.validate_moment self
         {| operations := operations moment ++ [{| addr := a; this := op |}] |} = Ok tt).
Proof.
  intros Hm Hop Hsuper Hfresh.
  pose proof (validate_moment_Ok_valid self moment Hm) as Hvalid.
  pose proof (proj1 (validate_moment_Ok_char self moment) Hm) as [_ Hfree].
  set (new := {| addr := a; this := op |}).
  assert (Hvalid' : forall o, In o (operations moment ++ [new]) ->
                              XmonDevice.validate_operation self (this o) = Ok tt).
  { intros o Ho. apply in_app_or in Ho as [Ho | [<- | []]]; [apply Hvalid, Ho | exact Hop]. }
  rewrite validate_moment_Ok_char. simpl operations.
  unfold XmonDevice.can_add_operation_into_moment.
  rewrite Hm, Hsuper. simpl bind. rewrite truthy_CZPowGate.
  destruct (validate_operation_Ok_inv self op Hop) as (gate & gs & Heq & Hallowed & _).
  destruct (decide (op_kind op = two_qubit_interaction)) as [Hcz | Hcz].
  - rewrite bool_decide_eq_true_2 by exact Hcz.
    unfold XmonDevice._check_if_exp11_operation_interacts_with_any.
    destruct (any_of_total (XmonDevice._check_if_exp11_operation_interacts self op)
                (map this (operations moment))) as (b & Hb & Hiff).
    { intros x Hx. apply in_map_iff in Hx as (o & <- & Ho).
      apply interacts_valid; [exact Hop | apply Hvalid, Ho]. }
    rewrite Hb. simpl. split.
    + intros [= Hnegb]. split; [exact Hvalid' |].
      assert (Hnone : forall o, In o (operations moment) ->
                XmonDevice._check_if_exp11_operation_interacts self op (this o) <> Ok true).
      { intros o Ho Hint. destruct b; [discriminate |].
        assert (false = true); [| discriminate]. apply Hiff.
        exists (this o). split; [apply in_map, Ho | exact Hint]. }
      intros (x & y & Hx & Hy & Hne & Hxcz & Hint).
      apply in_app_or in Hx as [Hx | [<- | []]]; apply in_app_or in Hy as [Hy | [<- | []]].
      * apply Hfree. exists x, y. auto.
      * simpl in Hint. apply (Hnone x Hx). rewrite <- Hint.
        destruct (validate_operation_Ok_inv self (this x) (Hvalid x Hx))
          as (gx & gsx & Hxeq & _ & _).
        rewrite Hxeq, Heq in *. simpl in Hcz, Hxcz.
        rewrite (interacts_grid self _ gx gs gsx) by reflexivity.
        rewrite (interacts_grid self _ gate gsx gs) by reflexivity.
        unfold kind_of in *. rewrite Hcz, Hxcz, some_adjacentb_sym. reflexivity.
      * apply (Hnone y Hy). exact Hint.
      * apply Hne. reflexivity.
    + intros [_ Hfree']. destruct b; [| reflexivity]. exfalso.
      destruct (proj1 Hiff eq_refl) as (x & Hx & Hint).
      apply in_map_iff in Hx as (o & <- & Ho).
      apply Hfree'. exists new, o. repeat split.
      * apply in_or_app. right. simpl. auto.
      * apply in_or_app. left. exact Ho.
      * simpl. apply Hfresh, Ho.
      * exact Hcz.
      * exact Hint.
  - rewrite bool_decide_eq_false_2 by exact Hcz. split; [| reflexivity].
    intros _. split; [exact Hvalid' |].
    intros (x & y & Hx & Hy & Hne & Hxcz & Hint).
    apply in_app_or in Hx as [Hx | [<- | []]]; [| contradiction].
    apply in_app_or in Hy as [Hy | [<- | []]].
    + apply Hfree. exists x, y. auto.
    + change (this new) with op in Hint. rewrite Heq in Hint, Hcz.
      unfold XmonDevice._check_if_exp11_operation_interacts in Hint.
      rewrite isinstance_non_interacting in Hint.
      rewrite (allowed_not_interaction _ Hallowed Hcz) in Hint. discriminate.
Qed.

Lemma can_add_iff_extended_moment_valid_witness :
  XmonDevice.validate_moment square_device
    {| operations := operations one_interaction
                     ++ [{| addr := 1; this := GateOperation (plain XPow) [Grid (GQ 1 0)] |}] |}
  = Ok tt.
Proof.
  apply (can_add_iff_extended_moment_valid (fun _ _ => true) square_device
           (GateOperation (plain XPow) [Grid (GQ 1 0)]) one_interaction 1%nat).
  - vm_compute. reflexivity.
  - vm_compute. reflexivity.
  - reflexivity.
  - intros o [<- | []]. simpl. lia.
  - vm_compute. reflexivity.
Defined.

(** ** Circuits and measurement keys *)

Lemma base_validate_circuit_Ok (self : XmonDevice) (circuit : Circuit) :
  Device.validate_circuit (XmonDevice.validate_moment self) circuit = Ok tt <->
  (forall m, In m (moments circuit) -> XmonDevice.validate_moment self m = Ok tt).
Proof. unfold Device.validate_circuit. rewrite for_each_Ok, List.Forall_forall. tauto. Qed.

(** X14: [validate_circuit] succeeds exactly when every moment passes
    [validate_moment] and no measurement key is used twice in the circuit;
    when some moment fails it raises the error of a failing moment, whether
    or not keys are repeated; and when every moment passes and a key is
    repeated it raises the repeated-key error for the first repeated key. *)
Theorem validate_circuit_outcomes (self : XmonDevice) (circuit : Circuit) :
  (XmonDevice.validate_circuit self circuit = Ok tt <->
   (forall m, In m (moments circuit) -> XmonDevice.validate_moment self m = Ok tt)
   /\ NoDup (keys_of (all_operations circuit)))
  /\ (forall m, In m (moments circuit) -> XmonDevice.validate_moment self m <> Ok tt ->
        exists m' e, In m' (moments circuit)
                     /\ XmonDevice.validate_moment self m' = Raise e
                     /\ XmonDevice.validate_circuit self circuit = Raise e)
  /\ ((forall m, In m (moments circuit) -> XmonDevice.validate_moment self m = Ok tt) ->
      forall k, XmonDevice.validate_circuit self circuit
                = Raise (ValueError (MeasurementKeyRepeated k))
                <-> first_repeated_key (all_operations circuit) k).
Proof.
  unfold XmonDevice.validate_circuit.
  pose proof (base_validate_circuit_Ok self circuit) as Hbase.
  destruct (Device.validate_circuit (XmonDevice.validate_moment self) circuit)
    as [[] | e] eqn:Hb; simpl.
  - pose proof (proj1 Hbase eq_refl) as Hmoments. split; [| split].
    + rewrite verify_Ok_NoDup. tauto.
    + intros m Hm Hbad. exfalso. apply Hbad, Hmoments, Hm.
    + intros _ k. unfold _verify_unique_measurement_keys, first_repeated_key.
      rewrite verify_from_Raise. split.
      * intros (pre & op & post & Heq & Hk & Hnd & _ & [Hin | Hin]);
          [| exfalso; revert Hin; apply not_elem_of_empty].
        exists pre, op, post. auto.
      * intros (pre & op & post & Heq & Hk & Hnd & Hin).
        exists pre, op, post. repeat split; auto. intros x _. apply not_elem_of_empty.
  - assert (Hfail : exists m', In m' (moments circuit)
                               /\ XmonDevice.validate_moment self m' = Raise e).
    { unfold Device.validate_circuit in Hb. apply for_each_Raise in Hb. exact Hb. }
    assert (Hnot : ~ forall m, In m (moments circuit) ->
                               XmonDevice.validate_moment self m = Ok tt).
    { intros Hall. apply Hbase in Hall. discriminate. }
    split; [| split].
    + split; [discriminate | intros [Hall _]; contradiction].
    + intros m Hm Hbad. destruct Hfail as (m' & Hm' & He). eauto.
    + intros Hall. contradiction.
Qed.

Lemma validate_circuit_outcomes_witness :
  XmonDevice.validate_circuit square_device repeated_key_circuit
  = Raise (ValueError (MeasurementKeyRepeated "m")).
Proof.
  apply (proj2 (proj2 (validate_circuit_outcomes square_device repeated_key_circuit))).
  - intros m [<- | []]. vm_compute. reflexivity.
  - exists [measure "m" (GQ 0 0)], (measure "m" (GQ 1 1)), [].
    split; [reflexivity |]. split; [reflexivity |]. split.
    + apply NoDup_singleton.
    + apply list_elem_of_singleton. reflexivity.
Defined.

(** X15: whether [_verify_unique_measurement_keys] succeeds does not depend
    on the order of the operations; when it succeeds on a sequence it succeeds
    on each of two parts the sequence is cut in; and it succeeds on every
    sequence without measurement. *)
Theorem verify_unique_measurement_keys_structure :
  (forall ops ops' : list Operation, ops ≡ₚ ops' ->
     (_verify_unique_measurement_keys ops = Ok tt
      <-> _verify_unique_measurement_keys ops' = Ok tt))
  /\ (forall l1 l2 : list Operation,
        _verify_unique_measurement_keys (l1 ++ l2) = Ok tt ->
        _verify_unique_measurement_keys l1 = Ok tt
        /\ _verify_unique_measurement_keys l2 = Ok tt)
  /\ (forall ops : list Operation,
        (forall op, In op ops -> measurement_key_of op = None) ->
        _verify_unique_measurement_keys ops = Ok tt).
Proof.
  split; [| split].
  - intros ops ops' Hperm. rewrite !verify_Ok_NoDup. unfold keys_of.
    rewrite Hperm. reflexivity.
  - intros l1 l2. rewrite !verify_Ok_NoDup, keys_of_app, NoDup_app. tauto.
  - intros ops Hnone. apply verify_Ok_NoDup.
    replace (keys_of ops) with (@nil string); [constructor |].
    induction ops as [| op ops IH]; [reflexivity |].
    rewrite keys_of_cons, (Hnone op) by (simpl; auto).
    apply IH. intros o Ho. apply Hnone. simpl. auto.
Qed.

Lemma verify_unique_measurement_keys_structure_witness :
  _verify_unique_measurement_keys [measure "n" (GQ 1 1); measure "m" (GQ 0 0)] = Ok tt
  /\ _verify_unique_measurement_keys [measure "m" (GQ 0 0)] = Ok tt
  /\ _verify_unique_measurement_keys
       [GateOperation (plain XPow) [Grid (GQ 0 0)]; OtherOperation []] = Ok tt.
Proof.
  destruct verify_unique_measurement_keys_structure as (Hperm & Hcut & Hnone).
  split; [| split].
  - apply (Hperm [measure "m" (GQ 0 0); measure "n" (GQ 1 1)]).
    + apply perm_swap.
    + vm_compute. reflexivity.
  - apply (Hcut [measure "m" (GQ 0 0)] [measure "n" (GQ 1 1)]). vm_compute. reflexivity.
  - apply Hnone. intros op [<- | [<- | []]]; reflexivity.
Defined.

(** ** Schedules *)

Lemma isinstance_CZPowGate (gate : Gate) :
  isinstance gate CZPowGate = bool_decide (kind_of gate = two_qubit_interaction).
Proof. destruct gate as [d sizer]. destruct d; reflexivity. Qed.

(** X16: [validate_scheduled_operation] fails with the error of
    [validate_operation] when the operation is invalid; it succeeds on every
    valid operation that is not a two-qubit interaction, whatever the
    schedule; and on a valid two-qubit interaction, the operations the
    schedule reports at the same time all carrying a gate, it fails with an
    adjacent-interaction error exactly when the operation interacts with one
    of them, and succeeds otherwise. *)
Theorem validate_scheduled_operation_cases
    (happening : Schedule -> ScheduledOperation -> list ScheduledOperation)
    (self : XmonDevice) (schedule : Schedule) (so : ScheduledOperation) :
  let r := XmonDeviceSchedule.validate_scheduled_operation happening self schedule so in
  let clash := exists other, In other (happening schedule so)
                 /\ XmonDevice._check_if_exp11_operation_interacts self
                      (operation so) (operation other) = Ok true in
  (forall e, XmonDevice.validate_operation self (operation so) = Raise e -> r = Raise e)
  /\ (XmonDevice.validate_operation self (operation so) = Ok tt ->
      op_kind (operation so) <> two_qubit_interaction -> r = Ok tt)
  /\ (XmonDevice.validate_operation self (operation so) = Ok tt ->
      op_kind (operation so) = two_qubit_interaction ->
      (forall other, In other (happening schedule so) ->
                     exists gate qs, operation other = GateOperation gate qs) ->
      (fails_with r AdjacentInteractionError <-> clash) /\ (r = Ok tt <-> ~ clash)).
Proof.
  intros r clash. subst r clash.
  unfold XmonDeviceSchedule.validate_scheduled_operation.
  split; [intros e ->; reflexivity |].
  split.
  - intros Hvalid Hkind. rewrite Hvalid. simpl bind.
    destruct (validate_operation_Ok_inv self _ Hvalid) as (gate & gs & Heq & _ & _).
    rewrite Heq in *. simpl in Hkind.
    rewrite isinstance_CZPowGate, bool_decide_eq_false_2 by exact Hkind. reflexivity.
  - intros Hvalid Hkind Hgates. rewrite Hvalid. simpl bind.
    destruct (validate_operation_Ok_inv self _ Hvalid) as (gate & gs & Heq & _ & _).
    rewrite Heq in *. simpl in Hkind.
    rewrite isinstance_CZPowGate, bool_decide_eq_true_2 by exact Hkind.
    set (body := fun other : ScheduledOperation =>
      letR b := XmonDevice._check_if_exp11_operation_interacts self
                  (GateOperation gate (map Grid gs)) (operation other) in
      if b then Raise (ValueError AdjacentExp11Operations) else Ok tt).
    assert (Hbody : forall other, In other (happening schedule so) ->
              (body other = Ok tt \/ body other = Raise (ValueError AdjacentExp11Operations))
              /\ (body other = Raise (ValueError AdjacentExp11Operations) <->
                  XmonDevice._check_if_exp11_operation_interacts self
                    (GateOperation gate (map Grid gs)) (operation other) = Ok true)).
    { intros other Hother. destruct (Hgates other Hother) as (gateB & qsB & HB).
      unfold body. rewrite HB.
      destruct (interacts_gate_operation self (GateOperation gate (map Grid gs)) gs gateB qsB)
        as [b Hb]; [reflexivity |].
      rewrite Hb. simpl. destruct b; split; auto; split; congruence. }
    destruct (for_each_one_error body (happening schedule so)
                (ValueError AdjacentExp11Operations)) as [Hr Ho];
      [intros x Hx; apply Hbody, Hx |].
    change (for_each _ (happening schedule so))
      with (for_each body (happening schedule so)).
    assert (Hiff : (exists x, In x (happening schedule so)
                              /\ body x = Raise (ValueError AdjacentExp11Operations))
                   <-> exists other, In other (happening schedule so)
                         /\ XmonDevice._check_if_exp11_operation_interacts self
                              (GateOperation gate (map Grid gs)) (operation other) = Ok true).
    { split; intros (x & Hx & H); exists x; (split; [exact Hx |]); apply (Hbody x Hx), H. }
    rewrite <- Hiff, Ho. split; [| tauto]. rewrite <- Hr. split.
    + intros (e & He & Hkind'). rewrite He. f_equal.
      destruct e as [[] | | |]; try discriminate. reflexivity.
    + intros He. exists (ValueError AdjacentExp11Operations). split; [exact He | reflexivity].
Qed.

Lemma validate_scheduled_operation_cases_witness :
  XmonDeviceSchedule.validate_scheduled_operation (fun _ _ => []) square_device
    {| schedule_device := Xmon square_device; scheduled_operations := [] |}
    {| time := 0; duration := picoseconds 20;
       operation := GateOperation (plain XPow) [Grid (GQ 0 0)] |} = Ok tt
  /\ XmonDeviceSchedule.validate_scheduled_operation (fun _ _ => []) square_device
       {| schedule_device := Xmon square_device; scheduled_operations := [] |}
       {| time := 0; duration := picoseconds 50;
          operation := GateOperation (plain CZPow) [Grid (GQ 0 0); Grid (GQ 0 1)] |} = Ok tt.
Proof.
  split.
  - refine (proj1 (proj2 (validate_scheduled_operation_cases (fun _ _ => []) square_device
                            _ _)) _ _).
    + vm_compute. reflexivity.
    + intros H. vm_compute in H. discriminate H.
  - destruct (validate_scheduled_operation_cases (fun _ _ => []) square_device
                {| schedule_device := Xmon square_device; scheduled_operations := [] |}
                {| time := 0; duration := picoseconds 50;
                   operation := GateOperation (plain CZPow) [Grid (GQ 0 0); Grid (GQ 0 1)] |})
      as (_ & _ & Hcz).
    destruct Hcz as [_ Hok].
    + vm_compute. reflexivity.
    + reflexivity.
    + intros other [].
    + apply Hok. intros (other & [] & _).
Defined.

(** X17: [validate_schedule] looks at the measurement keys first: a schedule
    in which a key is repeated fails with the repeated-key error for the first
    repeated key, whatever its operations are; and it succeeds exactly when
    no key is repeated and every scheduled operation passes
    [validate_scheduled_operation]. *)
Theorem validate_schedule_outcomes
    (happening : Schedule -> ScheduledOperation -> list ScheduledOperation)
    (self : XmonDevice) (schedule : Schedule) :
  (forall k, first_repeated_key (map operation (scheduled_operations schedule)) k ->
             XmonDeviceSchedule.validate_schedule happening self schedule
             = Raise (ValueError (MeasurementKeyRepeated k)))
  /\ (XmonDeviceSchedule.validate_schedule happening self schedule = Ok tt <->
      NoDup (keys_of (map operation (scheduled_operations schedule)))
      /\ forall so, In so (scheduled_operations schedule) ->
           XmonDeviceSchedule.validate_scheduled_operation happening self schedule so = Ok tt).
Proof.
  unfold XmonDeviceSchedule.validate_schedule. split.
  - intros k (pre & op & post & Heq & Hk & Hnd & Hin).
    assert (Hr : _verify_unique_measurement_keys (map operation (scheduled_operations schedule))
                 = Raise (ValueError (MeasurementKeyRepeated k))).
    { apply verify_from_Raise. exists pre, op, post.
      repeat split; auto. intros x _. apply not_elem_of_empty. }
    rewrite Hr. reflexivity.
  - pose proof (verify_Ok_NoDup (map operation (scheduled_operations schedule))) as Hkeys.
    destruct (_verify_unique_measurement_keys _) as [[] | e]; simpl.
    + rewrite for_each_Ok, List.Forall_forall. tauto.
    + split; [discriminate |]. intros [Hnd _]. apply Hkeys in Hnd. discriminate.
Qed.

Lemma validate_schedule_outcomes_witness :
  XmonDeviceSchedule.validate_schedule (fun _ _ => []) square_device
    {| schedule_device := Xmon square_device;
       scheduled_operations := [
         {| time := 0; duration := picoseconds 1000; operation := measure "m" (GQ 5 5) |};
         {| time := 0; duration := picoseconds 1000; operation := measure "m" (GQ 0 0) |} ] |}
  = Raise (ValueError (MeasurementKeyRepeated "m")).
Proof.
  apply (proj1 (validate_schedule_outcomes (fun _ _ => []) square_device _)).
  exists [measure "m" (GQ 5 5)], (measure "m" (GQ 0 0)), [].
  split; [reflexivity |]. split; [reflexivity |]. split.
  - apply NoDup_singleton.
  - apply list_elem_of_singleton. reflexivity.
Defined.

(** ** The acquaintance device and acquaintance sizes *)



Lemma fold_left_max_out (r : list Z) (a b : Z) :
  fold_left Z.max r (Z.max a b) = Z.max a (fold_left Z.max r b).
Proof.
  revert b. induction r as [| z r IH]; intros b; simpl; [reflexivity |].
  rewrite <- Z.max_assoc. apply IH.
Qed.

Lemma max_or_zero_app (l1 l2 : list Z) :
  l1 <> [] -> l2 <> [] ->
  max_or_zero (l1 ++ l2) = Z.max (max_or_zero l1) (max_or_zero l2).
Proof.
  destruct l1 as [| x r1]; [congruence |]. destruct l2 as [| y r2]; [congruence |].
  intros _ _. simpl. rewrite fold_left_app. simpl. apply fold_left_max_out.
Qed.

Lemma get_acquaintance_size_circuit_Ok (circuit : Circuit) (s : Z) :
  get_acquaintance_size (CircuitObject circuit) = Ok s <->
  is_acquaintance_strategy circuit = true
  /\ s = max_or_zero (map operation_acquaintance_size (all_operations circuit)).
Proof.
  simpl. destruct (is_acquaintance_strategy circuit); simpl.
  - split; [intros [= <-]; auto | intros [_ ->]; reflexivity].
  - split; [discriminate | intros [[=] _]].
Qed.

(** X19: the acquaintance size of an acquaintance strategy made of the
    moments of a first one followed by those of a second one is the larger of
    their two sizes when both hold operations, and the size of the other one
    when one of them holds none. *)
Theorem acquaintance_size_of_concatenation (c1 c2 : Circuit) (s1 s2 : Z) :
  get_acquaintance_size (CircuitObject c1) = Ok s1 ->
  get_acquaintance_size (CircuitObject c2) = Ok s2 ->
  let c := {| _device := _device c1; moments := moments c1 ++ moments c2 |} in
  (all_operations c1 <> [] -> all_operations c2 <> [] ->
   get_acquaintance_size (CircuitObject c) = Ok (Z.max s1 s2))
  /\ (all_operations c1 = [] -> get_acquaintance_size (CircuitObject c) = Ok s2)
  /\ (all_operations c2 = [] -> get_acquaintance_size (CircuitObject c) = Ok s1).
Proof.
  intros H1 H2 c.
  apply get_acquaintance_size_circuit_Ok in H1 as [Hacq ->].
  apply get_acquaintance_size_circuit_Ok in H2 as [_ ->].
  assert (Hops : all_operations c = all_operations c1 ++ all_operations c2).
  { unfold all_operations, c. simpl. apply flat_map_app. }
  assert (Hc : is_acquaintance_strategy c = true) by exact Hacq.
  split; [| split].
  - intros Hne1 Hne2. apply get_acquaintance_size_circuit_Ok. split; [exact Hc |].
    rewrite Hops, map_app. symmetry. apply max_or_zero_app.
    + destruct (all_operations c1); [congruence | discriminate].
    + destruct (all_operations c2); [congruence | discriminate].
  - intros Hempty. apply get_acquaintance_size_circuit_Ok. split; [exact Hc |].
    rewrite Hops, Hempty. reflexivity.
  - intros Hempty. apply get_acquaintance_size_circuit_Ok. split; [exact Hc |].
    rewrite Hops, Hempty, app_nil_r. reflexivity.
Qed.

Lemma acquaintance_size_of_concatenation_witness :
  get_acquaintance_size
    (CircuitObject {| _device := _device strategy_circuit;
                      moments := moments strategy_circuit ++ moments strategy_circuit |})
  = Ok (Z.max 3 3).
Proof.
  destruct (acquaintance_size_of_concatenation strategy_circuit strategy_circuit 3 3)
    as [Hmax _].
  - vm_compute. reflexivity.
  - vm_compute. reflexivity.
  - apply Hmax; intros H; vm_compute in H; discriminate H.
Defined.

Lemma sum_from_nonnegative (l : list Z) (a : Z) :
  (forall x, In x l -> 0 <= x) -> a <= fold_left Z.add l a.
Proof.
  revert a. induction l as [| y l IH]; intros a Hl; simpl; [lia |].
  etransitivity; [| apply IH; intros x Hx; apply Hl; simpl; auto].
  specialize (Hl y). simpl in Hl. lia.
Qed.

Lemma operation_size_nonnegative (op : Operation) :
  natural_operation op -> 0 <= operation_acquaintance_size op.
Proof.
  destruct op as [[d hook] qs | qs]; simpl; [| lia].
  intros [Hhook Hdata]. simpl in Hhook, Hdata. subst hook.
  unfold sizer_or_zero. simpl.
  destruct d as [| | | | key | | | | | size | part_lens [t |] |]; try lia.
  - destruct (bool_decide (t - 1 ∈ part_lens)) eqn:Hin; [| lia].
    apply bool_decide_eq_true_1, list_elem_of_In, Hdata in Hin. lia.
  - apply sum_from_nonnegative. intros x Hx. apply Hdata.
    unfold last_two, sorted in Hx. apply list_elem_of_In in Hx.
    apply list_elem_of_In. rewrite <- (merge_sort_Permutation Z.le part_lens).
    eapply subseteq_drop, Hx.
Qed.

(** X20: an operation whose gate has no size hook and declares no negative
    partition length or size has a non-negative acquaintance size, and so has
    an acquaintance strategy made of such operations.  A hook that answers a
    negative size makes the size of a circuit negative, below the 0 of the
    empty circuit. *)
Theorem acquaintance_size_nonnegative :
  (forall op, natural_operation op ->
     exists s, get_acquaintance_size (OperationObject op) = Ok s /\ 0 <= s)
  /\ (forall circuit, is_acquaintance_strategy circuit = true ->
        (forall op, In op (all_operations circuit) -> natural_operation op) ->
        exists m, get_acquaintance_size (CircuitObject circuit) = Ok m /\ 0 <= m)
  /\ get_acquaintance_size
       (CircuitObject {| _device := UnconstrainedAcquaintanceDevice;
                         moments := [ {| operations := [
                           {| addr := 0; this := GateOperation negative_gate [] |} ] |} ] |})
     = Ok (-1).
Proof.
  split; [| split; [| reflexivity]].
  - intros op Hop. eexists. split; [reflexivity |]. apply operation_size_nonnegative, Hop.
  - intros circuit Hacq Hops.
    exists (max_or_zero (map operation_acquaintance_size (all_operations circuit))).
    split; [simpl; rewrite Hacq; reflexivity |].
    pose proof (max_or_zero_spec (map operation_acquaintance_size (all_operations circuit)))
      as Hmax.
    unfold max_of_or_zero in Hmax.
    destruct (map operation_acquaintance_size (all_operations circuit)) as [| x l] eqn:Hsizes.
    + simpl. lia.
    + destruct Hmax as [Hin _].
      assert (Hin' : In (max_or_zero (x :: l))
                       (map operation_acquaintance_size (all_operations circuit)))
        by (rewrite Hsizes; exact Hin).
      apply in_map_iff in Hin' as (op & Heq & Hop). rewrite <- Heq.
      apply operation_size_nonnegative, Hops, Hop.
Qed.

Lemma acquaintance_size_nonnegative_witness :
  exists m, get_acquaintance_size (CircuitObject strategy_circuit) = Ok m /\ 0 <= m.
Proof.
  apply (proj1 (proj2 acquaintance_size_nonnegative) strategy_circuit).
  - reflexivity.
  - intros op Hop. simpl in Hop. destruct Hop as [<- | [<- | []]].
    + split; [reflexivity | exact I].
    + split; [reflexivity |]. simpl. intros x [<- | [<- | []]]; lia.
Defined.
